(** * trax: policy/value heads ([trax/models/rl.py]) and the input-pipeline
      tests ([trax/supervised/inputs_test.py])

    Both files are glue code: every line that computes anything is a call
    into a library ([trax.layers], [trax.models], [gin], [tfds], ...).  The
    embedding therefore keeps the libraries abstract (a [host] that answers
    calls, may raise, and may touch a global [World]) and models the glue
    itself: which calls are made, in which order, with which arguments, and
    what is done with their results. *)

From Stdlib Require Import ZArith List String Bool Lia.
Import ListNotations.
Open Scope string_scope.
Open Scope list_scope.
Open Scope Z_scope.
Set Warnings "-register-all".

(** ** Python values, as far as the glue code can tell them apart *)

Module Py.

(** A value is a literal, a list, tuple or dict built by the glue code, a
    generator expression over literals (kept as what it will yield), a
    reference to a module attribute ([np.int64], [t5_processors.denoise]),
    an object the code only passes around, or the object returned by a
    library call.  The last one is kept as the call itself: constructor
    name, positional arguments, keyword arguments in call order. *)
Inductive value : Type :=
| VNone
| VInt (n : Z)
| VBool (b : bool)
| VStr (s : string)
| VFloat (literal : string)
| VList (items : list value)
| VTuple (items : list value)
| VDict (entries : list (value * value))
| VGen (yields : list value)
| VAttr (module name : string)
| VOpaque (name : string)
| VObj (module name : string) (args : list value)
       (kwargs : list (string * value)).

Definition kwargs := list (string * value).

(** A raised exception: its class and its message. *)
Record exn : Type := Exn { exn_class : string; exn_msg : string }.

(** How a piece of code ends: with a value, with an exception, or not
    within the steps it was given. *)
Inductive result (A : Type) : Type :=
| Returned (a : A)
| Raised (e : exn)
| Unfinished.
Arguments Returned {A}.
Arguments Raised {A}.
Arguments Unfinished {A}.

(** What a call can be aimed at. *)
Inductive callee : Type :=
| Lib (module name : string)      (* module.name(...) *)
| Method (name : string)          (* receiver.name(...), receiver first *)
| Builtin (name : string)         (* len(x), x[i], x.attr, next(x), ... *)
| Fn (param : string).            (* a callable held in a parameter *)

(** One call made by the glue code, and whether it raised. *)
Record event : Type := Ev {
  target : callee;
  ev_args : list value;
  ev_kwargs : kwargs;
  raised : option exn
}.

Definition is_lib (module : string) (e : event) : option string :=
  match target e with
  | Lib m n => if String.eqb m module then Some n else None
  | _ => None
  end.

Definition calls_to (c : callee) (e : event) : bool :=
  match target e, c with
  | Lib m n, Lib m' n' => String.eqb m m' && String.eqb n n'
  | Method n, Method n' => String.eqb n n'
  | Builtin n, Builtin n' => String.eqb n n'
  | Fn n, Fn n' => String.eqb n n'
  | _, _ => false
  end.

(** [d[k] = v] on a dict with string keys, kept in insertion order: an
    existing key keeps its place and gets the new value, a new key goes
    last. *)
Fixpoint setitem (k : string) (v : value) (d : kwargs) : kwargs :=
  match d with
  | [] => [(k, v)]
  | (k', v') :: rest =>
      if String.eqb k k' then (k, v) :: rest else (k', v') :: setitem k v rest
  end.

(** Lookup of a keyword in a keyword-argument list. *)
Fixpoint kwarg (k : string) (kw : kwargs) : option value :=
  match kw with
  | [] => None
  | (k', v) :: rest => if String.eqb k k' then Some v else kwarg k rest
  end.

Section Effects.

(** The global state the libraries and the callables may read or write
    (gin's registry, TensorFlow's graph, the file system, ...). *)
Context {World : Type}.

(** Code the model does not look into: it starts in a world and ends in
    a possibly different one. *)
Definition effect (A : Type) : Type := World -> result A * World.

(** The libraries, answering every call the glue code makes. *)
Record host : Type := Host {
  host_call : callee -> list value -> kwargs -> effect value;
  (* one step of a [for] loop over an object: [None] when exhausted *)
  host_next : value -> effect (option value)
}.

(** The glue code's own monad: global state, exceptions, and the list of
    the calls it made. *)
Record outcome (A : Type) : Type := Out {
  res : result A;
  calls : list event;
  world : World
}.
Arguments Out {A}.
Arguments res {A}.
Arguments calls {A}.
Arguments world {A}.

Definition M (A : Type) : Type := World -> outcome A.

Definition ret {A} (a : A) : M A := fun w => Out (Returned a) [] w.

Definition bind {A B} (m : M A) (f : A -> M B) : M B :=
  fun w =>
    let o := m w in
    match res o with
    | Returned a =>
        let o' := f a (world o) in
        Out (res o') (calls o ++ calls o') (world o')
    | Raised e => Out (Raised e) (calls o) (world o)
    | Unfinished => Out Unfinished (calls o) (world o)
    end.

Definition raised_of {A} (r : result A) : option exn :=
  match r with Raised e => Some e | _ => None end.

(** A call of opaque code, recorded. *)
Definition perform {A} (c : callee) (args : list value) (kw : kwargs)
           (f : effect A) : M A :=
  fun w =>
    let '(r, w') := f w in
    Out r [Ev c args kw (raised_of r)] w'.

Definition run_opaque {A} (m : M A) : effect A :=
  fun w => let o := m w in (res o, world o).

Variable h : host.

(** [module.name(args, **kw)] *)
Definition call (c : callee) (args : list value) (kw : kwargs) : M value :=
  perform c args kw (host_call h c args kw).

End Effects.

Arguments Out {World A}.
Arguments res {World A}.
Arguments calls {World A}.
Arguments world {World A}.
Arguments host : clear implicits.
Arguments effect : clear implicits.
Arguments M : clear implicits.

(** The libraries as pure constructors: every call returns the object that
    records it, nothing raises, the world is left alone. *)
Definition symbolic_obj (c : callee) (args : list value) (kw : kwargs)
  : value :=
  match c with
  | Lib m n => VObj m n args kw
  | Method n => VObj "method" n args kw
  | Builtin n => VObj "builtin" n args kw
  | Fn n => VObj "fn" n args kw
  end.

Definition symbolic_call {World} (c : callee) (args : list value)
           (kw : kwargs) : effect World value :=
  fun w => (Returned (symbolic_obj c args kw), w).

Definition symbolic (World : Type) : host World :=
  {| host_call := symbolic_call;
     host_next := fun _ w => (Returned None, w) |}.

End Py.

Import Py.

Declare Scope py_scope.
Delimit Scope py_scope with py.
Notation "x <- m ;; k" := (bind m (fun x => k))
  (at level 61, m at next level, right associativity) : py_scope.
Notation "' pat <- m ;; k" := (bind m (fun x => match x with pat => k end))
  (at level 61, pat pattern, m at next level, right associativity)
  : py_scope.
Notation "m ;;; k" := (bind m (fun _ => k))
  (at level 61, right associativity) : py_scope.
Open Scope py_scope.

(** ** [trax/models/rl.py] *)

Module rl.

(** [policy_distribution]: the factories read one attribute of it. *)
Record distribution : Type := { n_inputs : Z }.

(** [(x,) * n]: Python repeats the tuple [n] times, and not at all when
    [n <= 0]. *)
Definition tuple_repeat (x : value) (n : Z) : list value :=
  repeat x (Z.to_nat n).

Section Factories.

Context {World : Type} (h : host World).

(** A callable taking [mode] by keyword, as [body] and [normalizer] do. *)
Definition callable : Type := string -> effect World value.

(** [lambda mode: []] *)
Definition empty_layers : callable := fun _ w => (Returned (VList []), w).

(** [if f is None: f = lambda mode: []] *)
Definition or_empty (f : option callable) : callable :=
  match f with
  | None => empty_layers
  | Some g => g
  end.

(** [f(mode=mode)] for a callable held in parameter [param]. *)
Definition invoke (param : string) (f : callable) (mode : string)
  : M World value :=
  perform (Fn param) [] [("mode", VStr mode)] (f mode).

(** [head_kwargs = {}], then
    [head_kwargs['kernel_initializer'] = tl.RandomUniformInitializer(...)]
    when [head_init_range is not None]. *)
Definition head_kwargs (head_init_range : option value) : M World kwargs :=
  let head_kwargs := [] in
  match head_init_range with
  | Some r =>
      init <- call h (Lib "tl" "RandomUniformInitializer") [] [("lim", r)] ;;
      ret (setitem "kernel_initializer" init head_kwargs)
  | None => ret head_kwargs
  end.

Definition Policy (policy_distribution : distribution)
           (body normalizer : option callable)
           (head_init_range : option value) (mode : string)
  : M World value :=
  let body := or_empty body in
  let normalizer := or_empty normalizer in
  kw <- head_kwargs head_init_range ;;
  n <- invoke "normalizer" normalizer mode ;;
  b <- invoke "body" body mode ;;
  d <- call h (Lib "tl" "Dense") [VInt (n_inputs policy_distribution)] kw ;;
  call h (Lib "tl" "Serial") [n; b; d] [].

(** The nested [def ActionInjector(mode)] of [Value]; it closes over
    [inject_actions], [inject_actions_n_layers], [inject_actions_dim]. *)
Definition ActionInjector (inject_actions : bool)
           (inject_actions_n_layers inject_actions_dim : Z)
           (mode : string) : M World value :=
  if inject_actions then
    d1 <- call h (Lib "tl" "Dense") [VInt inject_actions_dim] [] ;;
    d2 <- call h (Lib "tl" "Dense") [VInt inject_actions_dim] [] ;;
    p <- call h (Lib "tl" "Parallel") [d1; d2] [] ;;
    a <- call h (Lib "tl" "Add") [] [] ;;
    m <- call h (Lib "models" "PureMLP") []
           [("layer_widths",
             VTuple (tuple_repeat (VInt inject_actions_dim)
                                  inject_actions_n_layers));
            ("out_activation", VBool true);
            ("flatten", VBool false);
            ("mode", VStr mode)] ;;
    call h (Lib "tl" "Serial") [p; a; m] []
  else ret (VList []).

Definition Value (body normalizer : option callable)
           (inject_actions : bool)
           (inject_actions_n_layers inject_actions_dim : Z)
           (mode : string) : M World value :=
  let body := or_empty body in
  let normalizer := or_empty normalizer in
  n <- invoke "normalizer" normalizer mode ;;
  b <- invoke "body" body mode ;;
  a <- ActionInjector inject_actions inject_actions_n_layers
         inject_actions_dim mode ;;
  d <- call h (Lib "tl" "Dense") [VInt 1] [] ;;
  call h (Lib "tl" "Serial") [n; b; a; d] [].

(** A callable taking [policy_distribution] and [mode] by keyword. *)
Definition policy_callable : Type :=
  distribution -> string -> effect World value.

(** [policy_top(policy_distribution=policy_distribution, mode=mode)] *)
Definition invoke_policy_top (f : policy_callable) (d : distribution)
           (mode : string) : M World value :=
  perform (Fn "policy_top") []
    [("policy_distribution", VOpaque "policy_distribution");
     ("mode", VStr mode)]
    (f d mode).

Definition PolicyAndValue (policy_distribution : distribution)
           (body : option callable)
           (policy_top : policy_callable) (value_top : callable)
           (normalizer : option callable)
           (head_init_range : option value) (mode : string)
  : M World value :=
  kw <- head_kwargs head_init_range ;;
  let normalizer := or_empty normalizer in
  let body := or_empty body in
  n <- invoke "normalizer" normalizer mode ;;
  b <- invoke "body" body mode ;;
  p <- invoke_policy_top policy_top policy_distribution mode ;;
  v <- invoke "value_top" value_top mode ;;
  br <- call h (Lib "tl" "Branch") [p; v] [] ;;
  call h (Lib "tl" "Serial") [n; b; br] [].

(** The defaults [policy_top=Policy] and [value_top=Value]: the functions
    themselves, called with the keywords [PolicyAndValue] passes and their
    own defaults for the rest. *)
Definition default_policy_top : policy_callable :=
  fun d mode => run_opaque (Policy d None None None mode).

Definition default_value_top : callable :=
  fun mode => run_opaque (Value None None false 1 64 mode).

End Factories.

End rl.

(** ** [trax/supervised/inputs_test.py] *)

Module inputs_test.

Section InputsTest.

Context {World : Type} (h : host World).

(** The module-level constant [_TESTDATA], computed once at import. *)
Variable _TESTDATA : value.

(** The test case the methods are called on. *)
Definition self : value := VOpaque "self".

(** *** Statements the methods are written with *)

(** [self.name(args)] *)
Definition self_call (name : string) (args : list value) : M World value :=
  call h (Method name) (self :: args) [].

(** [x[i]] *)
Definition getitem (x i : value) : M World value :=
  call h (Builtin "getitem") [x; i] [].

(** [x.name] *)
Definition getattr (x : value) (name : string) : M World value :=
  call h (Builtin "getattr") [x; VStr name] [].

(** [len(x)] *)
Definition len (x : value) : M World value :=
  call h (Builtin "len") [x] [].

(** [a, b = x]: the interpreter draws the two items from [x]. *)
Definition unpack2 (x : value) : M World (value * value) :=
  a <- call h (Builtin "unpack") [x; VInt 0] [] ;;
  b <- call h (Builtin "unpack") [x; VInt 1] [] ;;
  ret (a, b).

(** One step of [for x in it]: the next item, or [None] when [it] is
    exhausted (the first step also opens the iteration). *)
Definition next_item (it : value) : M World (option value) :=
  perform (Builtin "for") [it] [] (host_next h it).

(** [for x in it: s = body(x, s)], given [fuel] rounds. *)
Fixpoint for_each {S : Type} (fuel : nat) (it : value)
         (body : value -> S -> M World S) (s : S) : M World S :=
  match fuel with
  | O => fun w => Out Unfinished [] w
  | Datatypes.S fuel' =>
      x <- next_item it ;;
      match x with
      | None => ret s
      | Some v => s' <- body v s ;; for_each fuel' it body s'
      end
  end.

(** [for x in xs: body(x)] over a list the test built itself. *)
Fixpoint for_list {X : Type} (xs : list X) (body : X -> M World unit)
  : M World unit :=
  match xs with
  | [] => ret tt
  | x :: rest => body x ;;; for_list rest body
  end.

(** [gin.bind_parameter(key, v)] *)
Definition bind_parameter (key : string) (v : value) : M World value :=
  call h (Lib "gin" "bind_parameter") [VStr key; v] [].

(** [os.path.join(_TESTDATA, 'sentencepiece.model')] *)
Definition testdata_spm : M World value :=
  call h (Lib "os.path" "join") [_TESTDATA; VStr "sentencepiece.model"] [].

(** *** Module-level helpers *)

Definition _c4_dataset (split : string) : M World value :=
  call h (Lib "tfds" "load") []
    [("name", VStr "c4"); ("split", VStr split); ("data_dir", _TESTDATA);
     ("shuffle_files", VBool false)].

Definition _spm_path : M World value := testdata_spm.

(** [list(tfds.as_numpy(dataset.take(1)))[0]] *)
Definition first_example (dataset : value) : M World value :=
  t <- call h (Method "take") [dataset; VInt 1] [] ;;
  n <- call h (Lib "tfds" "as_numpy") [t] [] ;;
  l <- call h (Builtin "list") [n] [] ;;
  getitem l (VInt 0).

(** *** The methods of [InputsTest] *)

Definition setUp : M World unit :=
  s <- call h (Builtin "super") [] [] ;;
  call h (Method "setUp") [s] [] ;;;
  call h (Lib "gin" "clear_config") [] [] ;;;
  ret tt.

Definition test_batch_data : M World unit :=
  let dataset :=
    VGen (map (fun i => VTuple [VInt i; VInt (i + 1)])
              (map Z.of_nat (seq 0 10))) in
  batches <- call h (Lib "inputs" "batch_data") [dataset; VInt 10] [] ;;
  batch <- call h (Builtin "next") [batches] [] ;;
  n <- len batch ;;
  self_call "assertEqual" [n; VInt 2] ;;;
  b0 <- getitem batch (VInt 0) ;;
  sh <- getattr b0 "shape" ;;
  self_call "assertEqual" [sh; VTuple [VInt 10]] ;;;
  ret tt.

Definition shape (dims : list Z) : value := VTuple (map VInt dims).

(** One of the four blocks of [test_pad_to_max_dims]:
    [tensors = [np.zeros(z), np.ones(o)]],
    [padded = inputs.pad_to_max_dims(tensors[, boundary])],
    [self.assertEqual(padded.shape, expected)]. *)
Definition pad_case (z o : list Z) (boundary : list value)
           (expected : list Z) : M World unit :=
  t0 <- call h (Lib "np" "zeros") [shape z] [] ;;
  t1 <- call h (Lib "np" "ones") [shape o] [] ;;
  padded <- call h (Lib "inputs" "pad_to_max_dims")
              (VList [t0; t1] :: boundary) [] ;;
  sh <- getattr padded "shape" ;;
  self_call "assertEqual" [sh; shape expected] ;;;
  ret tt.

Definition test_pad_to_max_dims : M World unit :=
  pad_case [3; 10] [3; 10] [] [2; 3; 10] ;;;
  pad_case [2; 10] [3; 9] [] [2; 3; 10] ;;;
  pad_case [8; 10] [8; 9] [VInt 12] [2; 8; 12] ;;;
  pad_case [2; 10] [3; 9] [VInt 12] [2; 4; 12].

Definition test_c4_bare_preprocess_fun : M World unit :=
  dataset <- _c4_dataset "train" ;;
  example <- first_example dataset ;;
  self_call "assertNotIn" [VStr "targets"; example] ;;;
  self_call "assertIn" [VStr "text"; example] ;;;
  text <- getitem example (VStr "text") ;;
  spm <- testdata_spm ;;
  dataset <- call h (Lib "inputs" "c4_bare_preprocess_fun") [dataset]
               [("spm_path", spm)] ;;
  example <- first_example dataset ;;
  self_call "assertIn" [VStr "targets_plaintext"; example] ;;;
  plain <- getitem example (VStr "targets_plaintext") ;;
  self_call "assertEqual" [plain; text] ;;;
  self_call "assertIn" [VStr "targets"; example] ;;;
  t <- getitem example (VStr "targets") ;;
  self_call "assertIsInstance" [t; VAttr "np" "ndarray"] ;;;
  t <- getitem example (VStr "targets") ;;
  dt <- getattr t "dtype" ;;
  self_call "assertEqual" [dt; VAttr "np" "int64"] ;;;
  t <- getitem example (VStr "targets") ;;
  n <- len t ;;
  self_call "assertGreater" [n; VInt 0] ;;;
  self_call "assertIn" [VStr "inputs"; example] ;;;
  i <- getitem example (VStr "inputs") ;;
  n <- len i ;;
  self_call "assertEqual" [n; VInt 0] ;;;
  ret tt.

(** The nested [def load_c4_dataset(split='train')]. *)
Definition load_c4_dataset (split : string) : M World value :=
  dataset <- _c4_dataset split ;;
  call h (Method "map")
    [dataset; VOpaque "lambda example: (example, example['text'])"] [].

(** The nested [def examine_processed_dataset(proc_dataset)]; it returns
    [count, lengths]. *)
Definition examine_processed_dataset (fuel : nat) (proc_dataset : value)
  : M World (Z * list value) :=
  it <- call h (Lib "tfds" "as_numpy") [proc_dataset] [] ;;
  for_each fuel it
    (fun example '(count, lengths) =>
       let count := count + 1 in
       ex <- getitem example (VInt 0) ;;
       self_call "assertIn" [VStr "targets"; ex] ;;;
       t <- getitem ex (VStr "targets") ;;
       dt <- getattr t "dtype" ;;
       self_call "assertEqual" [dt; VAttr "np" "int64"] ;;;
       t <- getitem ex (VStr "targets") ;;
       n <- len t ;;
       ret (count, lengths ++ [n]))
    (0, []).

Definition test_c4_preprocess (fuel : nat) : M World unit :=
  d <- load_c4_dataset "train" ;;
  it <- call h (Lib "tfds" "as_numpy") [d] [] ;;
  unfiltered_count <-
    for_each fuel it
      (fun example unfiltered_count =>
         let unfiltered_count := unfiltered_count + 1 in
         e0 <- getitem example (VInt 0) ;;
         self_call "assertNotIn" [VStr "targets"; e0] ;;;
         ret unfiltered_count)
      0 ;;
  d <- load_c4_dataset "train" ;;
  r <- call h (Lib "inputs" "c4_preprocess")
         [d; VBool false; VTuple [VDict []; VTuple []]; VInt 2048] [] ;;
  '(proc_dataset, proc_shapes) <- unpack2 r ;;
  s1 <- getitem proc_shapes (VInt 1) ;;
  self_call "assertEqual" [s1; VTuple [VNone]] ;;;
  '(proc_count, char_lengths) <-
    examine_processed_dataset fuel proc_dataset ;;
  self_call "assertGreater" [VInt unfiltered_count; VInt 0] ;;;
  self_call "assertGreater" [VInt proc_count; VInt 0] ;;;
  self_call "assertLess" [VInt proc_count; VInt unfiltered_count] ;;;
  d <- load_c4_dataset "train" ;;
  spm <- testdata_spm ;;
  r <- call h (Lib "inputs" "c4_preprocess")
         [d; VBool false; VTuple [VDict []; VTuple []]; VInt 2048]
         [("tokenization", VStr "spc"); ("spm_path", spm)] ;;
  '(spc_proc_dataset, _) <- unpack2 r ;;
  '(spc_proc_count, spc_lengths) <-
    examine_processed_dataset fuel spc_proc_dataset ;;
  self_call "assertLessEqual" [VInt proc_count; VInt spc_proc_count] ;;;
  self_call "assertEqual" [VInt unfiltered_count; VInt spc_proc_count] ;;;
  for_list (combine spc_lengths char_lengths)
    (fun '(spc_len, char_len) =>
       self_call "assertLessEqual" [spc_len; char_len] ;;; ret tt).

Definition test_c4 : M World unit :=
  bind_parameter "shuffle_and_batch_data.preprocess_fun"
    (VAttr "inputs" "c4_preprocess") ;;;
  bind_parameter "c4_preprocess.max_target_length" (VInt 2048) ;;;
  bind_parameter "c4_preprocess.tokenization" (VStr "spc") ;;;
  spm <- testdata_spm ;;
  bind_parameter "c4_preprocess.spm_path" spm ;;;
  bind_parameter "batch_fn.batch_size_per_device" (VInt 8) ;;;
  bind_parameter "batch_fn.eval_batch_size" (VInt 8) ;;;
  bind_parameter "batch_fn.max_eval_length" (VInt 2048) ;;;
  bind_parameter "batch_fn.buckets"
    (VTuple [VList [VInt 2049]; VList [VInt 8; VInt 1]]) ;;;
  call h (Lib "inputs" "inputs") [VStr "c4"]
    [("data_dir", _TESTDATA); ("input_name", VStr "targets");
     ("target_name", VStr "text")] ;;;
  ret tt.

Definition t5_gin_config : M World unit :=
  let noise_density := VFloat "0.15" in
  let max_input_length := VInt 50 in
  bind_parameter "unsupervised.preprocessors"
    (VList [VAttr "t5_processors" "select_random_chunk";
            VAttr "t5_processors" "reduce_concat_tokens";
            VAttr "t5_processors" "split_tokens";
            VAttr "t5_processors" "denoise"]) ;;;
  bind_parameter "select_random_chunk.feature_key" (VStr "targets") ;;;
  bind_parameter "select_random_chunk.max_length" max_input_length ;;;
  bind_parameter "random_spans_helper.extra_tokens_per_span_inputs"
    (VInt 1) ;;;
  bind_parameter "random_spans_helper.extra_tokens_per_span_targets"
    (VInt 1) ;;;
  bind_parameter "random_spans_helper.inputs_length" max_input_length ;;;
  bind_parameter "random_spans_helper.mean_noise_span_length"
    (VFloat "3.0") ;;;
  bind_parameter "random_spans_helper.noise_density" noise_density ;;;
  n <- call h (Lib "t5_processors" "random_spans_tokens_length") [] [] ;;
  bind_parameter "split_tokens.max_tokens_per_segment" n ;;;
  bind_parameter "denoise.inputs_fn"
    (VAttr "t5_processors" "noise_span_to_unique_sentinel") ;;;
  bind_parameter "denoise.noise_density" noise_density ;;;
  bind_parameter "denoise.noise_mask_fn"
    (VAttr "t5_processors" "random_spans_noise_mask") ;;;
  bind_parameter "denoise.targets_fn"
    (VAttr "t5_processors" "nonnoise_span_to_unique_sentinel") ;;;
  ret tt.

Definition test_c4_bare_preprocess_fun_denoising_objective
  : M World unit :=
  t5_gin_config ;;;
  dataset <- _c4_dataset "train" ;;
  spm <- _spm_path ;;
  r <- call h (Lib "inputs" "c4_bare_preprocess_fun") [dataset]
         [("spm_path", spm)] ;;
  '(dataset, _) <- unpack2 r ;;
  example <- first_example dataset ;;
  self_call "assertIn" [VStr "targets"; example] ;;;
  targets <- getitem example (VStr "targets") ;;
  self_call "assertIsInstance" [targets; VAttr "np" "ndarray"] ;;;
  dt <- getattr targets "dtype" ;;
  self_call "assertEqual" [dt; VAttr "np" "int64"] ;;;
  n <- len targets ;;
  self_call "assertGreater" [n; VInt 0] ;;;
  self_call "assertIn" [VStr "inputs"; example] ;;;
  _inputs <- getitem example (VStr "inputs") ;;
  self_call "assertIsInstance" [_inputs; VAttr "np" "ndarray"] ;;;
  dt <- getattr _inputs "dtype" ;;
  self_call "assertEqual" [dt; VAttr "np" "int64"] ;;;
  n <- len _inputs ;;
  self_call "assertGreater" [n; VInt 0] ;;;
  ni <- len _inputs ;;
  nt <- len targets ;;
  self_call "assertGreater" [ni; nt] ;;;
  l <- call h (Method "tolist") [_inputs] [] ;;
  inputs_counter <- call h (Lib "collections" "Counter") [l] [] ;;
  l <- call h (Method "tolist") [targets] [] ;;
  targets_counter <- call h (Lib "collections" "Counter") [l] [] ;;
  c <- getitem inputs_counter (VInt 31999) ;;
  self_call "assertEqual" [VInt 1; c] ;;;
  c <- getitem inputs_counter (VInt 31998) ;;
  self_call "assertEqual" [VInt 1; c] ;;;
  c <- getitem targets_counter (VInt 31999) ;;
  self_call "assertEqual" [VInt 1; c] ;;;
  c <- getitem targets_counter (VInt 31998) ;;
  self_call "assertEqual" [VInt 1; c] ;;;
  ret tt.

Definition test_c4_pretrain : M World unit :=
  t5_gin_config ;;;
  bind_parameter "shuffle_and_batch_data.bare_preprocess_fun"
    (VAttr "inputs" "c4_bare_preprocess_fun") ;;;
  spm <- testdata_spm ;;
  bind_parameter "c4_bare_preprocess_fun.spm_path" spm ;;;
  bind_parameter "batch_fn.batch_size_per_device" (VInt 8) ;;;
  bind_parameter "batch_fn.eval_batch_size" (VInt 8) ;;;
  bind_parameter "batch_fn.max_eval_length" (VInt 50) ;;;
  bind_parameter "batch_fn.buckets"
    (VTuple [VList [VInt 51]; VList [VInt 8; VInt 1]]) ;;;
  call h (Lib "inputs" "inputs") [VStr "c4"]
    [("data_dir", _TESTDATA); ("input_name", VStr "inputs");
     ("target_name", VStr "targets")] ;;;
  ret tt.

(** *** [_test_dataset_ints] *)

(** The body of the loop of the nested [def generator()], up to its
    [yield]: [x = np.zeros([length], dtype=np.int64)], then [(x, x)]. *)
Definition generator_round (length : Z) : M World value :=
  x <- call h (Lib "np" "zeros") [VList [VInt length]]
         [("dtype", VAttr "np" "int64")] ;;
  ret (VTuple [x; x]).

(** The nested [def generator()] run to its end, as [list(generator())]
    runs it: one round per length, in order, each yielding its item. *)
Fixpoint generator (lengths : list Z) : M World (list value) :=
  match lengths with
  | [] => ret []
  | length :: rest =>
      item <- generator_round length ;;
      items <- generator rest ;;
      ret (item :: items)
  end.

(** [_test_dataset_ints(lengths)]: the generator is handed over, not run. *)
Definition _test_dataset_ints (lengths : list Z) : M World value :=
  let types := VTuple [VAttr "tf" "int64"; VAttr "tf" "int64"] in
  s0 <- call h (Lib "tf" "TensorShape") [VList [VNone]] [] ;;
  s1 <- call h (Lib "tf" "TensorShape") [VList [VNone]] [] ;;
  let shapes := VTuple [s0; s1] in
  call h (Lib "tf.data.Dataset" "from_generator") [VOpaque "generator"]
    [("output_types", types); ("output_shapes", shapes)].

End InputsTest.

End inputs_test.

(** ** Reasoning about glue code *)

Module Glue.

Section Laws.

Context {World : Type}.

(** [m], started in [w], returns [a] and leaves the world [w']. *)
Definition returns {A} (m : M World A) (w : World) (a : A) (w' : World)
  : Prop :=
  res (m w) = Returned a /\ world (m w) = w'.

Lemma bind_run {A B} (m : M World A) (f : A -> M World B) w :
  bind m f w =
  match res (m w) with
  | Returned a => Out (res (f a (world (m w))))
                      (calls (m w) ++ calls (f a (world (m w))))
                      (world (f a (world (m w))))
  | Raised e => Out (Raised e) (calls (m w)) (world (m w))
  | Unfinished => Out Unfinished (calls (m w)) (world (m w))
  end.
Proof. reflexivity. Qed.

Lemma returns_ret {A} (a : A) w : returns (ret a) w a w.
Proof. split; reflexivity. Qed.

Lemma returns_bind {A B} (m : M World A) (f : A -> M World B) w a w' b w'' :
  returns m w a w' -> returns (f a) w' b w'' -> returns (bind m f) w b w''.
Proof.
  intros [Hr Hw] [Hr' Hw']. unfold returns. rewrite bind_run, Hr. simpl.
  rewrite Hw. split; assumption.
Qed.

Lemma returns_perform {A} c args kw (f : effect World A) w a w' :
  f w = (Returned a, w') -> returns (perform c args kw f) w a w'.
Proof. intros H. unfold returns, perform. rewrite H. split; reflexivity. Qed.

Lemma returns_symbolic c args kw w :
  returns (call (symbolic World) c args kw) w (symbolic_obj c args kw) w.
Proof. split; reflexivity. Qed.

Lemma calls_bind {A B} (m : M World A) (f : A -> M World B) w :
  calls (bind m f w) =
  calls (m w) ++
  match res (m w) with
  | Returned a => calls (f a (world (m w)))
  | _ => []
  end.
Proof.
  rewrite bind_run. destruct (res (m w)); simpl; rewrite ?app_nil_r;
    reflexivity.
Qed.

Lemma calls_perform {A} c args kw (f : effect World A) w :
  calls (perform c args kw f w) = [Ev c args kw (raised_of (fst (f w)))].
Proof. unfold perform. destruct (f w). reflexivity. Qed.

(** Runs are equal when their parts are, world by world. *)
Lemma bind_ext {A B} (m m' : M World A) (k k' : A -> M World B) w :
  (forall w, m w = m' w) -> (forall a w, k a w = k' a w) ->
  bind m k w = bind m' k' w.
Proof.
  intros Hm Hk. rewrite !bind_run, Hm.
  destruct (res (m' w)); [rewrite Hk|..]; reflexivity.
Qed.

Lemma perform_ext {A} c args kw (f g : effect World A) w :
  (forall w, f w = g w) -> perform c args kw f w = perform c args kw g w.
Proof. intros H. unfold perform. rewrite H. reflexivity. Qed.

(** *** Every recorded call satisfies [P] *)

Definition logs (P : event -> Prop) {A} (m : M World A) : Prop :=
  forall w, Forall P (calls (m w)).

Lemma logs_ret P {A} (a : A) : logs P (ret a).
Proof. intros w. constructor. Qed.

Lemma logs_bind P {A B} (m : M World A) (f : A -> M World B) :
  logs P m -> (forall a, logs P (f a)) -> logs P (bind m f).
Proof.
  intros Hm Hf w. rewrite calls_bind. apply Forall_app. split; [apply Hm|].
  destruct (res (m w)); [apply Hf | constructor..].
Qed.

Lemma logs_perform (P : event -> Prop) {A} c args kw (f : effect World A) :
  (forall r, P (Ev c args kw r)) -> logs P (perform c args kw f).
Proof.
  intros H w. rewrite calls_perform. constructor; [apply H | constructor].
Qed.

(** *** No call touches or reads the world *)

Definition pure_effect {A} (f : effect World A) : Prop :=
  exists r, forall w, f w = (r, w).

Definition pure_M {A} (m : M World A) : Prop :=
  exists r l, forall w, m w = Out r l w.

Lemma pure_ret {A} (a : A) : pure_M (ret a).
Proof. exists (Returned a), []. reflexivity. Qed.

Lemma pure_bind {A B} (m : M World A) (f : A -> M World B) :
  pure_M m -> (forall a, pure_M (f a)) -> pure_M (bind m f).
Proof.
  intros (r & l & Hm) Hf. destruct r as [a | e |].
  - destruct (Hf a) as (r' & l' & Hfa).
    exists r', (l ++ l'). intros w. rewrite bind_run, Hm. simpl.
    rewrite Hfa. reflexivity.
  - exists (Raised e), l. intros w. rewrite bind_run, Hm. reflexivity.
  - exists Unfinished, l. intros w. rewrite bind_run, Hm. reflexivity.
Qed.

Lemma pure_perform {A} c args kw (f : effect World A) :
  pure_effect f -> pure_M (perform c args kw f).
Proof.
  intros (r & Hf). exists r, [Ev c args kw (raised_of r)]. intros w.
  unfold perform. rewrite Hf. reflexivity.
Qed.

Lemma pure_run_opaque {A} (m : M World A) :
  pure_M m -> pure_effect (run_opaque m).
Proof.
  intros (r & l & Hm). exists r. intros w. unfold run_opaque.
  rewrite Hm. reflexivity.
Qed.

(** *** Exceptions pass through *)

Definition quiet (l : list event) : Prop :=
  Forall (fun ev => raised ev = None) l.

(** Either nothing raised and a value came back, or the last call made is
    the one that raised, and its exception is the outcome. *)
Definition propagates {A} (o : outcome (World:=World) A) : Prop :=
  match res o with
  | Raised e => exists l ev, calls o = l ++ [ev] /\ quiet l
                             /\ raised ev = Some e
  | _ => quiet (calls o)
  end.

Definition transparent {A} (m : M World A) : Prop :=
  forall w, propagates (m w).

Lemma transparent_ret {A} (a : A) : transparent (ret a).
Proof. intros w. constructor. Qed.

Lemma transparent_bind {A B} (m : M World A) (f : A -> M World B) :
  transparent m -> (forall a, transparent (f a)) -> transparent (bind m f).
Proof.
  intros Hm Hf w. specialize (Hm w). unfold propagates in *.
  rewrite bind_run. destruct (res (m w)) as [a | e |]; simpl;
    [| exact Hm..].
  specialize (Hf a (world (m w))). unfold propagates in Hf.
  destruct (res (f a (world (m w)))) as [b | e |].
  - apply Forall_app. split; assumption.
  - destruct Hf as (l & ev & Hl & Hq & Hr).
    exists (calls (m w) ++ l), ev. rewrite Hl, app_assoc.
    repeat split; [apply Forall_app; split|]; assumption.
  - apply Forall_app. split; assumption.
Qed.

Lemma transparent_perform {A} c args kw (f : effect World A) :
  transparent (perform c args kw f).
Proof.
  intros w. unfold propagates, perform.
  destruct (f w) as [[a | e |] w']; simpl.
  - repeat constructor.
  - exists [], (Ev c args kw (Some e)). repeat split. constructor.
  - repeat constructor.
Qed.

(** The same, in the words of the caller: an exception raised by any call
    is the outcome, unchanged; and an exception that comes out was raised
    by the last call made. *)
Definition uncaught {A} (o : outcome (World:=World) A) : Prop :=
  (forall ev e, In ev (calls o) -> raised ev = Some e -> res o = Raised e)
  /\ (forall e, res o = Raised e ->
                exists l ev, calls o = l ++ [ev] /\ raised ev = Some e).

Lemma propagates_uncaught {A} (o : outcome (World:=World) A) :
  propagates o -> uncaught o.
Proof.
  assert (Hquiet : forall l : list event, quiet l ->
            forall ev e, In ev l -> raised ev = Some e -> False).
  { intros l Hq ev e Hin Hr. unfold quiet in Hq.
    rewrite Forall_forall in Hq. rewrite (Hq _ Hin) in Hr.
    discriminate. }
  unfold propagates, uncaught. destruct (res o) as [a | e |].
  - intros Hq. split; [|discriminate].
    intros ev e Hin Hr. destruct (Hquiet _ Hq _ _ Hin Hr).
  - intros (l & ev & Hl & Hq & Hr). split.
    + intros ev' e' Hin Hr'. rewrite Hl in Hin.
      apply in_app_or in Hin. destruct Hin as [Hin | [<- | []]].
      * destruct (Hquiet _ Hq _ _ Hin Hr').
      * congruence.
    + intros e' [= <-]. eauto.
  - intros Hq. split; [|discriminate].
    intros ev e Hin Hr. destruct (Hquiet _ Hq _ _ Hin Hr).
Qed.

(** The same, when what [m] returns is known to satisfy [Q]. *)
Lemma logs_bind_where P {A B} (Q : A -> Prop) (m : M World A)
      (f : A -> M World B) :
  logs P m -> (forall w a, res (m w) = Returned a -> Q a) ->
  (forall a, Q a -> logs P (f a)) -> logs P (bind m f).
Proof.
  intros Hm HQ Hf w. rewrite calls_bind. apply Forall_app.
  split; [apply Hm |].
  destruct (res (m w)) as [a | e |] eqn:Hr; [| constructor..].
  apply Hf. exact (HQ w a Hr).
Qed.

(** *** Taking runs apart *)

Lemma res_bind_returned {A B} (m : M World A) (f : A -> M World B) w b :
  res (bind m f w) = Returned b ->
  exists a, res (m w) = Returned a
            /\ res (f a (world (m w))) = Returned b.
Proof.
  rewrite bind_run. destruct (res (m w)) as [a | e |]; simpl;
    [eauto | discriminate..].
Qed.

Lemma world_bind_returned {A B} (m : M World A) (f : A -> M World B) w a :
  res (m w) = Returned a ->
  world (bind m f w) = world (f a (world (m w))).
Proof. intros H. rewrite bind_run, H. reflexivity. Qed.

Lemma in_calls_bind {A B} (m : M World A) (f : A -> M World B) w ev :
  In ev (calls (bind m f w)) ->
  In ev (calls (m w))
  \/ exists a, res (m w) = Returned a
               /\ In ev (calls (f a (world (m w)))).
Proof.
  rewrite calls_bind. intros H. apply in_app_or in H.
  destruct H as [H | H]; [left; exact H |].
  destruct (res (m w)); [right; eauto | destruct H..].
Qed.

Lemma in_calls_perform {A} c args kw (f : effect World A) w ev :
  In ev (calls (perform c args kw f w)) ->
  ev = Ev c args kw (raised_of (fst (f w))).
Proof. rewrite calls_perform. intros [<- | []]. reflexivity. Qed.

Lemma perform_returned {A} c args kw (f : effect World A) w a :
  res (perform c args kw f w) = Returned a ->
  f w = (Returned a, world (perform c args kw f w)).
Proof.
  unfold perform. destruct (f w) as [r w']. simpl. intros ->. reflexivity.
Qed.

(** The calls made before a later call all returned. *)
Lemma earlier_calls_returned {A} (o : outcome (World:=World) A) l1 ev l2 :
  propagates o -> calls o = l1 ++ ev :: l2 -> quiet l1.
Proof.
  intros Hp Hc.
  assert (Hall : quiet (l1 ++ ev :: l2) -> quiet l1).
  { intros H. apply Forall_app in H. apply H. }
  unfold propagates in Hp. destruct (res o) as [a | e |];
    [rewrite Hc in Hp; auto | | rewrite Hc in Hp; auto].
  destruct Hp as (l & ev' & Hl & Hq & _). rewrite Hc in Hl.
  destruct (exists_last (l := ev :: l2)) as (l2' & z & Hz);
    [discriminate |].
  rewrite Hz, app_assoc in Hl. apply app_inj_tail in Hl.
  destruct Hl as [<- _]. apply Forall_app in Hq. apply Hq.
Qed.

(** *** Calls made in a fixed order *)

Section Scripts.

(** What of a recorded call the order is stated in: its target, or its
    target and the parameter it names.  It must not look at whether the
    call raised. *)
Context {L : Type} (lab : event -> L).

(** The calls made are the first few of [script], and all of it when the
    run returns. *)
Definition follows (script : list L) {A} (o : outcome (World:=World) A)
  : Prop :=
  (exists n, map lab (calls o) = firstn n script)
  /\ (forall a, res o = Returned a -> map lab (calls o) = script).

Definition scripted (script : list L) {A} (m : M World A) : Prop :=
  forall w, follows script (m w).

Lemma prefix_app (s1 s2 : list L) n :
  exists n', firstn n s1 = firstn n' (s1 ++ s2).
Proof.
  exists (Nat.min n (List.length s1)). rewrite firstn_app.
  replace (Nat.min n (List.length s1) - List.length s1)%nat with 0%nat by lia.
  simpl. rewrite app_nil_r.
  destruct (Nat.le_ge_cases n (List.length s1)).
  - rewrite Nat.min_l by lia. reflexivity.
  - rewrite Nat.min_r by lia. rewrite !firstn_all2 by lia. reflexivity.
Qed.

Lemma scripted_ret {A} (a : A) : scripted [] (ret a).
Proof. intros w. split; [exists 0%nat |]; reflexivity. Qed.

Lemma scripted_perform {A} c args kw (f : effect World A) x :
  (forall r, lab (Ev c args kw r) = x) -> scripted [x] (perform c args kw f).
Proof.
  intros H w. unfold follows. rewrite calls_perform. simpl. rewrite H.
  split; [exists 1%nat |]; reflexivity.
Qed.

Lemma scripted_bind {A B} (m : M World A) (f : A -> M World B) s1 s2 :
  scripted s1 m -> (forall a, scripted s2 (f a)) ->
  scripted (s1 ++ s2) (bind m f).
Proof.
  intros Hm Hf w. destruct (Hm w) as [[n Hn] Hfull]. unfold follows.
  rewrite bind_run. destruct (res (m w)) as [a | e |]; simpl.
  - destruct (Hf a (world (m w))) as [[n' Hn'] Hfull'].
    rewrite map_app, (Hfull a eq_refl). split.
    + exists (List.length s1 + n')%nat. rewrite firstn_app_2, Hn'. reflexivity.
    + intros b Hb. rewrite (Hfull' b Hb). reflexivity.
  - split; [| discriminate]. rewrite Hn. apply prefix_app.
  - split; [| discriminate]. rewrite Hn. apply prefix_app.
Qed.

Lemma scripted_step {A B} c args kw (g : effect World A)
      (f : A -> M World B) x s :
  (forall r, lab (Ev c args kw r) = x) -> (forall a, scripted s (f a)) ->
  scripted (x :: s) (bind (perform c args kw g) f).
Proof.
  intros Hx Hf. change (x :: s) with ([x] ++ s).
  apply scripted_bind; [apply scripted_perform; exact Hx | exact Hf].
Qed.

Lemma scripted_last {A} c args kw (g : effect World A) x :
  (forall r, lab (Ev c args kw r) = x) ->
  scripted [x] (bind (perform c args kw g) (fun _ => ret tt)).
Proof.
  intros Hx. change [x] with ([x] ++ []).
  apply scripted_bind; [apply scripted_perform; exact Hx |].
  intros _. apply scripted_ret.
Qed.

End Scripts.

(** A list splits in one way around an element that occurs once. *)
Lemma split_unique {X} (x : X) l1 l2 l1' l2' :
  l1 ++ x :: l2 = l1' ++ x :: l2' -> ~ In x l1 -> ~ In x l2 -> l1 = l1'.
Proof.
  revert l1'. induction l1 as [| a l1 IH]; intros [| b l1'] H H1 H2;
    simpl in *.
  - reflexivity.
  - injection H as -> ->. destruct H2. apply in_or_app. right. left.
    reflexivity.
  - injection H as -> _. destruct H1. left. reflexivity.
  - injection H as -> H. f_equal. apply IH; auto.
Qed.

(** Where a call stands in the script, when the script names it once: all
    that the script has before it was called before it. *)
Lemma position_in_script {L} (lab : event -> L) {A}
      (o : outcome (World:=World) A) script pre post l1 ev l2 :
  follows lab script o ->
  calls o = l1 ++ ev :: l2 ->
  script = pre ++ lab ev :: post ->
  ~ In (lab ev) pre -> ~ In (lab ev) post ->
  map lab l1 = pre.
Proof.
  intros [[n Hn] _] Hc Hs Hpre Hpost.
  rewrite Hc, map_app in Hn. simpl in Hn.
  pose proof (firstn_skipn n script) as Hsplit.
  rewrite <- Hn, <- app_assoc in Hsplit. simpl in Hsplit.
  rewrite Hs in Hsplit. symmetry.
  exact (split_unique _ _ _ _ _ (eq_sym Hsplit) Hpre Hpost).
Qed.

End Laws.

End Glue.

Import Glue.

(** ** Properties of the factories of [rl.py] *)

Module RlProps.

Import rl.

(** The names of [trax.layers] the spec lists as consumed. *)
Definition tl_surface : list string :=
  ["Serial"; "Parallel"; "Branch"; "Add"; "Dense";
   "RandomUniformInitializer"].

(** A recorded call stays within [tl_surface] when it is a call of [tl]. *)
Definition within_surface (ev : event) : Prop :=
  forall n, is_lib "tl" ev = Some n -> In n tl_surface.

(** [tl.RandomUniformInitializer(lim=r)] as an object. *)
Definition initializer_of (r : value) : value :=
  VObj "tl" "RandomUniformInitializer" [] [("lim", r)].

(** The keyword arguments [Policy] gives its [Dense] head. *)
Definition head_kwargs_of (head_init_range : option value) : kwargs :=
  match head_init_range with
  | Some r => [("kernel_initializer", initializer_of r)]
  | None => []
  end.

(** The keyword arguments of the calls of [c] among [l], in call order. *)
Definition kwargs_given_to (c : callee) (l : list event) : list kwargs :=
  map ev_kwargs (filter (calls_to c) l).

(** The calls among [l] that are not calls of [c]. *)
Definition calls_but (c : callee) (l : list event) : list event :=
  filter (fun ev => negb (calls_to c ev)) l.

(** The injector's layers, as [Value] builds them when [inject_actions]. *)
Definition injector_of (inject_actions_n_layers inject_actions_dim : Z)
           (mode : string) : value :=
  VObj "tl" "Serial"
    [VObj "tl" "Parallel"
       [VObj "tl" "Dense" [VInt inject_actions_dim] [];
        VObj "tl" "Dense" [VInt inject_actions_dim] []] [];
     VObj "tl" "Add" [] [];
     VObj "models" "PureMLP" []
       [("layer_widths",
         VTuple (tuple_repeat (VInt inject_actions_dim)
                              inject_actions_n_layers));
        ("out_activation", VBool true);
        ("flatten", VBool false);
        ("mode", VStr mode)]] [].

Definition pure_callable {World} (f : callable (World:=World)) : Prop :=
  forall mode, pure_effect (f mode).

Definition pure_option {World} (f : option (callable (World:=World)))
  : Prop :=
  match f with
  | Some g => pure_callable g
  | None => True
  end.

(** A run whose world is left as found and whose result and calls are the
    same from any world. *)
Definition stateless {World A} (m : M World A) : Prop :=
  (forall w, world (m w) = w)
  /\ (forall w1 w2, res (m w1) = res (m w2) /\ calls (m w1) = calls (m w2)).

Definition mode_kw (mode : string) : kwargs := [("mode", VStr mode)].

(** The call recorded by [head_kwargs], if any. *)
Definition initializer_calls (head_init_range : option value) : list event :=
  match head_init_range with
  | Some r =>
      [Ev (Lib "tl" "RandomUniformInitializer") [] [("lim", r)] None]
  | None => []
  end.

(** What the default heads of [PolicyAndValue] are. *)
Definition default_policy_head (pd : distribution) : value :=
  VObj "tl" "Serial"
    [VList []; VList []; VObj "tl" "Dense" [VInt (n_inputs pd)] []] [].

Definition default_value_head : value :=
  VObj "tl" "Serial"
    [VList []; VList []; VList []; VObj "tl" "Dense" [VInt 1] []] [].

(** [tl.RandomUniformInitializer] as the constructor it is: given a limit
    it returns an initializer, and does nothing else. *)
Definition initializer_constructs {World} (h : host World) : Prop :=
  forall r, exists init, forall w,
    host_call h (Lib "tl" "RandomUniformInitializer") [] [("lim", r)] w
    = (Returned init, w).

(** The layer constructors the factories call: the six of [tl_surface] and
    [models.PureMLP]. *)
Definition layer_constructors : list callee :=
  map (Lib "tl") tl_surface ++ [Lib "models" "PureMLP"].

(** The layer constructors only build: each returns, or raises, the same
    from any state and leaves the state as it is.  Nothing is asked of what
    else the libraries hold (gin, the datasets, ...). *)
Definition constructors_pure {World} (h : host World) : Prop :=
  forall c args kw,
    In c layer_constructors -> pure_effect (host_call h c args kw).

Definition is_layer_constructor (c : callee) : bool :=
  existsb (fun c' => calls_to c' (Ev c [] [] None)) layer_constructors.

(** Libraries in which the layer constructors build and every other call
    is counted in the global state. *)
Definition counting_host : host nat :=
  {| host_call := fun c args kw n =>
       if is_layer_constructor c
       then (Returned (symbolic_obj c args kw), n)
       else (Returned VNone, S n);
     host_next := fun _ n => (Returned None, S n) |}.

(** [lambda mode: [tl.Dense(64)]], written against the pure constructors. *)
Definition dense_body {World} : callable (World:=World) :=
  fun _ w => (Returned (VList [VObj "tl" "Dense" [VInt 64] []]), w).

(** A normalizer that counts its calls in the global state. *)
Definition counting_normalizer : callable (World:=nat) :=
  fun _ n => (Returned (VList [VObj "tl" "LayerNorm" [] []]), S n).

Definition four_actions : distribution := {| n_inputs := 4 |}.

(** The names of [tl] called in [l], in call order. *)
Definition tl_names (l : list event) : list string :=
  flat_map (fun ev => match is_lib "tl" ev with
                      | Some n => [n]
                      | None => []
                      end) l.

Lemma pure_stateless {World A} (m : M World A) : pure_M m -> stateless m.
Proof.
  intros (r & l & H). split.
  - intros w. rewrite H. reflexivity.
  - intros w1 w2. rewrite !H. split; reflexivity.
Qed.

Section Symbolic.

(** The factories run against [tl] and [models] as pure constructors.
    The callables passed in stay arbitrary; each lemma takes what they
    return, and the world they leave, as given. *)
Context {World : Type}.
Local Abbreviation sym := (symbolic World).

Lemma Policy_run pd body normalizer r mode w0 w1 w2 nv bv :
  or_empty normalizer mode w0 = (Returned nv, w1) ->
  or_empty body mode w1 = (Returned bv, w2) ->
  let head := VObj "tl" "Dense" [VInt (n_inputs pd)] (head_kwargs_of r) in
  Policy sym pd body normalizer r mode w0 =
  Out (Returned (VObj "tl" "Serial" [nv; bv; head] []))
      (initializer_calls r ++
       [Ev (Fn "normalizer") [] (mode_kw mode) None;
        Ev (Fn "body") [] (mode_kw mode) None;
        Ev (Lib "tl" "Dense") [VInt (n_inputs pd)] (head_kwargs_of r) None;
        Ev (Lib "tl" "Serial") [nv; bv; head] [] None])
      w2.
Proof.
  intros Hn Hb. unfold Policy, invoke, call, perform, bind.
  destruct r as [r |]; simpl; rewrite Hn; simpl; rewrite Hb; reflexivity.
Qed.

Lemma head_kwargs_symbolic r w :
  returns (head_kwargs sym r) w (head_kwargs_of r) w.
Proof.
  destruct r as [r |]; simpl; [| apply returns_ret].
  eapply returns_bind; [apply returns_symbolic | apply returns_ret].
Qed.

Lemma ActionInjector_symbolic (ia : bool) nl dim mode w :
  returns (ActionInjector sym ia nl dim mode) w
          (if ia then injector_of nl dim mode else VList []) w.
Proof.
  destruct ia; simpl; [| apply returns_ret].
  repeat (eapply returns_bind; [apply returns_symbolic | cbv beta]).
  apply returns_symbolic.
Qed.

Ltac runs :=
  repeat (eapply returns_bind;
          [ first [ apply head_kwargs_symbolic
                  | apply ActionInjector_symbolic
                  | apply returns_symbolic
                  | apply returns_perform; eassumption ]
          | cbv beta ]);
  apply returns_symbolic.

Lemma Value_run body normalizer (ia : bool) nl dim mode w0 w1 w2 nv bv :
  or_empty normalizer mode w0 = (Returned nv, w1) ->
  or_empty body mode w1 = (Returned bv, w2) ->
  let A := if ia then injector_of nl dim mode else VList [] in
  returns (Value sym body normalizer ia nl dim mode) w0
    (VObj "tl" "Serial" [nv; bv; A; VObj "tl" "Dense" [VInt 1] []] [])
    w2.
Proof. intros Hn Hb A. unfold Value, invoke. runs. Qed.

Lemma PolicyAndValue_run pd body policy_top value_top normalizer r mode
      w0 w1 w2 w3 w4 nv bv pv vv :
  or_empty normalizer mode w0 = (Returned nv, w1) ->
  or_empty body mode w1 = (Returned bv, w2) ->
  policy_top pd mode w2 = (Returned pv, w3) ->
  value_top mode w3 = (Returned vv, w4) ->
  returns
    (PolicyAndValue sym pd body policy_top value_top normalizer r mode) w0
    (VObj "tl" "Serial" [nv; bv; VObj "tl" "Branch" [pv; vv] []] [])
    w4.
Proof.
  intros Hn Hb Hp Hv. unfold PolicyAndValue, invoke_policy_top, invoke.
  runs.
Qed.

Lemma Policy_returns pd body normalizer r mode w0 w1 w2 nv bv :
  or_empty normalizer mode w0 = (Returned nv, w1) ->
  or_empty body mode w1 = (Returned bv, w2) ->
  returns (Policy sym pd body normalizer r mode) w0
    (VObj "tl" "Serial"
       [nv; bv; VObj "tl" "Dense" [VInt (n_inputs pd)] (head_kwargs_of r)]
       [])
    w2.
Proof. intros Hn Hb. unfold Policy, invoke. runs. Qed.

Lemma run_opaque_returns {A} (m : M World A) w a w' :
  returns m w a w' -> run_opaque m w = (Returned a, w').
Proof. intros [Hr Hw]. unfold run_opaque. rewrite Hr, Hw. reflexivity. Qed.

Lemma default_policy_top_symbolic pd mode w :
  default_policy_top sym pd mode w = (Returned (default_policy_head pd), w).
Proof.
  apply run_opaque_returns.
  exact (Policy_returns pd None None None mode w w w _ _ eq_refl eq_refl).
Qed.

Lemma default_value_top_symbolic mode w :
  default_value_top sym mode w = (Returned default_value_head, w).
Proof.
  apply run_opaque_returns.
  exact (Value_run None None false 1 64 mode w w w _ _ eq_refl eq_refl).
Qed.

End Symbolic.

(** *** Claims about the structure returned *)

(** C1. [PolicyAndValue] returns
    [tl.Serial(normalizer(mode), body(mode), tl.Branch(policy_top(...),
    value_top(...)))]: with the library as pure constructors, and whatever
    the four callables return (called in this order: normalizer, body,
    policy_top, value_top), the result is the [Serial] of the normalizer's
    layers, the body's layers, and a [Branch] of the policy head and the
    value head, in that order. *)
Theorem PolicyAndValue_structure :
  forall (World : Type) pd body policy_top value_top normalizer
         head_init_range mode (w0 w1 w2 w3 w4 : World) nv bv pv vv,
    or_empty normalizer mode w0 = (Returned nv, w1) ->
    or_empty body mode w1 = (Returned bv, w2) ->
    policy_top pd mode w2 = (Returned pv, w3) ->
    value_top mode w3 = (Returned vv, w4) ->
    returns
      (PolicyAndValue (symbolic World) pd body policy_top value_top normalizer
                      head_init_range mode)
      w0
      (VObj "tl" "Serial" [nv; bv; VObj "tl" "Branch" [pv; vv] []] [])
      w4.
Proof. intros. eapply PolicyAndValue_run; eassumption. Qed.

(** C2. [Policy] returns
    [tl.Serial(normalizer(mode), body(mode), tl.Dense(n_inputs, ...))]:
    normalizer, then body, then a head that is one [Dense] layer of output
    size [policy_distribution.n_inputs]. *)
Theorem Policy_structure :
  forall (World : Type) pd body normalizer head_init_range mode
         (w0 w1 w2 : World) nv bv,
    or_empty normalizer mode w0 = (Returned nv, w1) ->
    or_empty body mode w1 = (Returned bv, w2) ->
    returns
      (Policy (symbolic World) pd body normalizer head_init_range mode)
      w0
      (VObj "tl" "Serial"
         [nv; bv;
          VObj "tl" "Dense" [VInt (n_inputs pd)]
               (head_kwargs_of head_init_range)] [])
      w2.
Proof.
  intros * Hn Hb. apply Policy_returns with (w1 := w1); assumption.
Qed.

(** C3. [Value] returns
    [tl.Serial(normalizer(mode), body(mode), A, tl.Dense(1))], where [A] is
    the empty list when [inject_actions] is false and otherwise
    [tl.Serial(tl.Parallel(tl.Dense(dim), tl.Dense(dim)), tl.Add(),
    models.PureMLP(layer_widths=(dim,)*n_layers, out_activation=True,
    flatten=False, mode=mode))]; the head is a [Dense] of size 1 either
    way. *)
Theorem Value_structure :
  forall (World : Type) body normalizer inject_actions
         inject_actions_n_layers inject_actions_dim mode
         (w0 w1 w2 : World) nv bv,
    or_empty normalizer mode w0 = (Returned nv, w1) ->
    or_empty body mode w1 = (Returned bv, w2) ->
    returns
      (Value (symbolic World) body normalizer inject_actions
             inject_actions_n_layers inject_actions_dim mode)
      w0
      (VObj "tl" "Serial"
         [nv; bv;
          if inject_actions
          then VObj "tl" "Serial"
                 [VObj "tl" "Parallel"
                    [VObj "tl" "Dense" [VInt inject_actions_dim] [];
                     VObj "tl" "Dense" [VInt inject_actions_dim] []] [];
                  VObj "tl" "Add" [] [];
                  VObj "models" "PureMLP" []
                    [("layer_widths",
                      VTuple (repeat (VInt inject_actions_dim)
                                     (Z.to_nat inject_actions_n_layers)));
                     ("out_activation", VBool true);
                     ("flatten", VBool false);
                     ("mode", VStr mode)]] []
          else VList [];
          VObj "tl" "Dense" [VInt 1] []] [])
      w2.
Proof.
  intros * Hn Hb.
  exact (Value_run _ _ inject_actions inject_actions_n_layers
                   inject_actions_dim _ _ _ _ _ _ Hn Hb).
Qed.

(** C6. In [Policy], the [Dense] head gets the keyword
    [kernel_initializer = tl.RandomUniformInitializer(lim=head_init_range)]
    exactly when [head_init_range] is not [None]; when it is [None] the head
    is built with no keyword argument at all. *)
Theorem Policy_head_kernel_initializer :
  forall (World : Type) pd body normalizer head_init_range mode
         (w0 w1 w2 : World) nv bv,
    or_empty normalizer mode w0 = (Returned nv, w1) ->
    or_empty body mode w1 = (Returned bv, w2) ->
    exists kw,
      kwargs_given_to (Lib "tl" "Dense")
        (calls (Policy (symbolic World) pd body normalizer head_init_range
                       mode w0)) = [kw]
      /\ kwarg "kernel_initializer" kw
         = option_map (fun r => VObj "tl" "RandomUniformInitializer" []
                                     [("lim", r)]) head_init_range
      /\ (kwarg "kernel_initializer" kw <> None <-> head_init_range <> None)
      /\ (head_init_range = None -> kw = []).
Proof.
  intros * Hn Hb. exists (head_kwargs_of head_init_range).
  rewrite (Policy_run _ _ _ _ _ _ _ _ _ _ Hn Hb).
  destruct head_init_range as [r |]; cbn; repeat split;
    try discriminate; try tauto; try reflexivity.
Qed.

(** *** Claims that hold against any library *)

Section AnyHost.

Context {World : Type} (h : host World).

Lemma logs_head_kwargs r : logs within_surface (head_kwargs h r).
Proof.
  destruct r as [r |]; simpl; [|apply logs_ret].
  apply logs_bind; [|intros; apply logs_ret].
  apply logs_perform. intros o n [= <-]. simpl. tauto.
Qed.

Ltac surface :=
  repeat first
    [ apply logs_ret
    | apply logs_head_kwargs
    | apply logs_perform;
      let o := fresh in let n := fresh in let H := fresh in
      intros o n H; cbv in H; first [ discriminate H
                                    | injection H as <-; simpl; tauto ]
    | apply logs_bind; [| intros ? ] ].

Lemma Policy_surface pd body normalizer r mode :
  logs within_surface (Policy h pd body normalizer r mode).
Proof. unfold Policy, invoke, call. surface. Qed.

Lemma Value_surface body normalizer ia nl dim mode :
  logs within_surface (Value h body normalizer ia nl dim mode).
Proof.
  unfold Value, ActionInjector, invoke, call. destruct ia; surface.
Qed.

Lemma PolicyAndValue_surface pd body ptop vtop normalizer r mode :
  logs within_surface
       (PolicyAndValue h pd body ptop vtop normalizer r mode).
Proof. unfold PolicyAndValue, invoke_policy_top, invoke, call. surface. Qed.

Lemma pure_or_empty (f : option (callable (World:=World))) :
  pure_option f -> pure_callable (or_empty f).
Proof.
  destruct f as [g |]; simpl; [tauto|]. intros _ mode.
  exists (Returned (VList [])). reflexivity.
Qed.

Hypothesis Hhost : constructors_pure h.

Lemma pure_call c args kw :
  In c layer_constructors -> pure_M (call h c args kw).
Proof. intros Hc. apply pure_perform, Hhost, Hc. Qed.

Lemma pure_head_kwargs r : pure_M (head_kwargs h r).
Proof.
  destruct r as [r |]; simpl; [|apply pure_ret].
  apply pure_bind; [apply pure_call; simpl; tauto | intros; apply pure_ret].
Qed.

Ltac purity :=
  repeat first
    [ apply pure_ret
    | apply pure_head_kwargs
    | apply pure_call; simpl; tauto
    | apply pure_perform; solve [ auto using pure_or_empty ]
    | apply pure_bind; [| intros ? ] ].

Lemma Policy_pure pd body normalizer r mode :
  pure_option body -> pure_option normalizer ->
  pure_M (Policy h pd body normalizer r mode).
Proof.
  intros Hb Hn. pose proof (pure_or_empty _ Hb mode).
  pose proof (pure_or_empty _ Hn mode). unfold Policy, invoke. purity.
Qed.

Lemma Value_pure body normalizer ia nl dim mode :
  pure_option body -> pure_option normalizer ->
  pure_M (Value h body normalizer ia nl dim mode).
Proof.
  intros Hb Hn. pose proof (pure_or_empty _ Hb mode).
  pose proof (pure_or_empty _ Hn mode).
  unfold Value, ActionInjector, invoke. destruct ia; purity.
Qed.

Lemma PolicyAndValue_pure pd body ptop vtop normalizer r mode :
  pure_option body -> pure_option normalizer ->
  (forall d m, pure_effect (ptop d m)) -> pure_callable vtop ->
  pure_M (PolicyAndValue h pd body ptop vtop normalizer r mode).
Proof.
  intros Hb Hn Hp Hv. pose proof (pure_or_empty _ Hb mode).
  pose proof (pure_or_empty _ Hn mode). pose proof (Hp pd mode).
  pose proof (Hv mode).
  unfold PolicyAndValue, invoke_policy_top, invoke. purity.
Qed.

End AnyHost.

(** C7. Whatever the arguments and whatever the library does, the calls
    [Policy], [Value] and [PolicyAndValue] make into [tl] are calls of
    [Serial], [Parallel], [Branch], [Add], [Dense] or
    [RandomUniformInitializer], and of nothing else of [tl]. *)
Theorem factories_stay_within_tl_surface :
  forall (World : Type) (h : host World) pd body normalizer policy_top
         value_top head_init_range inject_actions inject_actions_n_layers
         inject_actions_dim mode (w : World),
    Forall within_surface
      (calls (Policy h pd body normalizer head_init_range mode w))
    /\ Forall within_surface
         (calls (Value h body normalizer inject_actions
                       inject_actions_n_layers inject_actions_dim mode w))
    /\ Forall within_surface
         (calls (PolicyAndValue h pd body policy_top value_top normalizer
                                head_init_range mode w)).
Proof.
  intros. split; [apply Policy_surface|].
  split; [apply Value_surface | apply PolicyAndValue_surface].
Qed.


Lemma PolicyAndValue_drops_head_kwargs {World} (h : host World) pd body ptop
      vtop normalizer mode :
  initializer_constructs h ->
  forall r w,
    let o := PolicyAndValue h pd body ptop vtop normalizer r mode w in
    let o' := PolicyAndValue h pd body ptop vtop normalizer None mode w in
    res o = res o' /\ world o = world o'
    /\ calls_but (Lib "tl" "RandomUniformInitializer") (calls o)
       = calls_but (Lib "tl" "RandomUniformInitializer") (calls o').
Proof.
  intros Hc r w. destruct r as [r |]; [| repeat split].
  destruct (Hc r) as [init Hinit].
  unfold PolicyAndValue. rewrite !bind_run.
  assert (Hk : head_kwargs h (Some r) w =
               Out (Returned [("kernel_initializer", init)])
                   [Ev (Lib "tl" "RandomUniformInitializer") []
                       [("lim", r)] None] w).
  { unfold head_kwargs, call, perform, bind. rewrite Hinit. reflexivity. }
  rewrite Hk. cbn [res calls world head_kwargs ret].
  match goal with
  | |- context [res ?o] => destruct (res o)
  end; cbn [res calls world]; repeat split.
Qed.

(** C4. The network [PolicyAndValue] returns does not depend on
    [head_init_range]: for any two values of it, [None] included, and all
    else equal, the result is the same, the state left is the same, and
    every call other than the construction of the initializer itself is the
    same call with the same arguments: the [head_kwargs] built from
    [head_init_range] reach neither [policy_top], nor [value_top], nor a
    layer constructor. *)
Theorem PolicyAndValue_ignores_head_init_range :
  forall (World : Type) (h : host World) pd body policy_top value_top
         normalizer mode,
    initializer_constructs h ->
    forall r1 r2 (w : World),
      let o1 := PolicyAndValue h pd body policy_top value_top normalizer r1
                               mode w in
      let o2 := PolicyAndValue h pd body policy_top value_top normalizer r2
                               mode w in
      res o1 = res o2 /\ world o1 = world o2
      /\ calls_but (Lib "tl" "RandomUniformInitializer") (calls o1)
         = calls_but (Lib "tl" "RandomUniformInitializer") (calls o2).
Proof.
  intros * Hc r1 r2 w.
  destruct (PolicyAndValue_drops_head_kwargs h pd body policy_top value_top
              normalizer mode Hc r1 w) as (H1 & H2 & H3).
  destruct (PolicyAndValue_drops_head_kwargs h pd body policy_top value_top
              normalizer mode Hc r2 w) as (H1' & H2' & H3').
  cbv zeta in *. repeat split; congruence.
Qed.

Ltac same_run :=
  repeat (apply bind_ext;
          [ intros ?; first [ reflexivity
                            | apply perform_ext; intros ?; auto ]
          | intros ? ? ]);
  reflexivity.

(** C10. For each factory, [body=None] is the same as a [body] that returns
    the empty layer list, and likewise for [normalizer]; so with both left
    out the network is the head alone: [Policy(d)] is
    [tl.Serial([], [], tl.Dense(d.n_inputs))]. *)
Theorem None_is_the_empty_layer_list :
  forall (World : Type) (h : host World) (f : callable),
    (forall mode w, f mode w = (Returned (VList []), w)) ->
    forall pd body normalizer policy_top value_top head_init_range
           inject_actions inject_actions_n_layers inject_actions_dim mode
           (w : World),
      (Policy h pd None normalizer head_init_range mode w
       = Policy h pd (Some f) normalizer head_init_range mode w
       /\ Policy h pd body None head_init_range mode w
          = Policy h pd body (Some f) head_init_range mode w)
      /\ (Value h None normalizer inject_actions inject_actions_n_layers
                inject_actions_dim mode w
          = Value h (Some f) normalizer inject_actions
                  inject_actions_n_layers inject_actions_dim mode w
          /\ Value h body None inject_actions inject_actions_n_layers
                   inject_actions_dim mode w
             = Value h body (Some f) inject_actions inject_actions_n_layers
                     inject_actions_dim mode w)
      /\ (PolicyAndValue h pd None policy_top value_top normalizer
                         head_init_range mode w
          = PolicyAndValue h pd (Some f) policy_top value_top normalizer
                           head_init_range mode w
          /\ PolicyAndValue h pd body policy_top value_top None
                            head_init_range mode w
             = PolicyAndValue h pd body policy_top value_top (Some f)
                              head_init_range mode w)
      /\ returns (Policy (symbolic World) pd None None None mode) w
           (VObj "tl" "Serial"
              [VList []; VList [];
               VObj "tl" "Dense" [VInt (n_inputs pd)] []] [])
           w
      /\ returns (Value (symbolic World) None None false
                        inject_actions_n_layers inject_actions_dim mode) w
           (VObj "tl" "Serial"
              [VList []; VList []; VList [];
               VObj "tl" "Dense" [VInt 1] []] [])
           w
      /\ returns (PolicyAndValue (symbolic World) pd None
                    (default_policy_top (symbolic World))
                    (default_value_top (symbolic World)) None None mode) w
           (VObj "tl" "Serial"
              [VList []; VList [];
               VObj "tl" "Branch"
                 [VObj "tl" "Serial"
                    [VList []; VList [];
                     VObj "tl" "Dense" [VInt (n_inputs pd)] []] [];
                  VObj "tl" "Serial"
                    [VList []; VList []; VList [];
                     VObj "tl" "Dense" [VInt 1] []] []] []] [])
           w.
Proof.
  intros World h f Hf *.
  assert (He : forall mode w, empty_layers mode w = f mode w)
    by (intros; rewrite Hf; reflexivity).
  repeat match goal with |- _ /\ _ => split end.
  - unfold Policy, invoke, or_empty. same_run.
  - unfold Policy, invoke, or_empty. same_run.
  - unfold Value, invoke, or_empty. same_run.
  - unfold Value, invoke, or_empty. same_run.
  - unfold PolicyAndValue, invoke, or_empty. same_run.
  - unfold PolicyAndValue, invoke, or_empty. same_run.
  - exact (Policy_returns pd None None None mode w w w _ _ eq_refl eq_refl).
  - exact (Value_run None None false inject_actions_n_layers
                     inject_actions_dim mode w w w _ _ eq_refl eq_refl).
  - apply PolicyAndValue_run with (w1 := w) (w2 := w) (w3 := w);
      first [ reflexivity
            | apply default_policy_top_symbolic
            | apply default_value_top_symbolic ].
Qed.

(** *** The theorems at concrete arguments *)

Lemma PolicyAndValue_structure_witness :
  returns
    (PolicyAndValue (symbolic nat) four_actions (Some dense_body)
       (default_policy_top (symbolic nat)) (default_value_top (symbolic nat))
       (Some counting_normalizer) (Some (VFloat "0.01")) "train")
    0%nat
    (VObj "tl" "Serial"
       [VList [VObj "tl" "LayerNorm" [] []];
        VList [VObj "tl" "Dense" [VInt 64] []];
        VObj "tl" "Branch"
          [VObj "tl" "Serial"
             [VList []; VList []; VObj "tl" "Dense" [VInt 4] []] [];
           VObj "tl" "Serial"
             [VList []; VList []; VList []; VObj "tl" "Dense" [VInt 1] []]
             []] []] [])
    1%nat.
Proof.
  apply (PolicyAndValue_structure nat four_actions (Some dense_body)
           (default_policy_top (symbolic nat))
           (default_value_top (symbolic nat)) (Some counting_normalizer)
           (Some (VFloat "0.01")) "train" 0%nat 1%nat 1%nat 1%nat 1%nat);
    reflexivity.
Defined.

Lemma Policy_structure_witness :
  returns
    (Policy (symbolic nat) four_actions (Some dense_body)
            (Some counting_normalizer) (Some (VFloat "0.01")) "eval")
    5%nat
    (VObj "tl" "Serial"
       [VList [VObj "tl" "LayerNorm" [] []];
        VList [VObj "tl" "Dense" [VInt 64] []];
        VObj "tl" "Dense" [VInt 4]
          [("kernel_initializer",
            VObj "tl" "RandomUniformInitializer" []
                 [("lim", VFloat "0.01")])]] [])
    6%nat.
Proof.
  apply (Policy_structure nat four_actions (Some dense_body)
           (Some counting_normalizer) (Some (VFloat "0.01")) "eval"
           5%nat 6%nat 6%nat);
    reflexivity.
Defined.

Lemma Value_structure_witness :
  returns
    (Value (symbolic nat) (Some dense_body) None true 2 32 "train")
    0%nat
    (VObj "tl" "Serial"
       [VList [];
        VList [VObj "tl" "Dense" [VInt 64] []];
        VObj "tl" "Serial"
          [VObj "tl" "Parallel"
             [VObj "tl" "Dense" [VInt 32] [];
              VObj "tl" "Dense" [VInt 32] []] [];
           VObj "tl" "Add" [] [];
           VObj "models" "PureMLP" []
             [("layer_widths", VTuple [VInt 32; VInt 32]);
              ("out_activation", VBool true);
              ("flatten", VBool false);
              ("mode", VStr "train")]] [];
        VObj "tl" "Dense" [VInt 1] []] [])
    0%nat.
Proof.
  apply (Value_structure nat (Some dense_body) None true 2 32 "train"
           0%nat 0%nat 0%nat);
    reflexivity.
Defined.

Lemma PolicyAndValue_ignores_head_init_range_witness :
  let run r :=
    PolicyAndValue (symbolic nat) four_actions (Some dense_body)
      (default_policy_top (symbolic nat)) (default_value_top (symbolic nat))
      (Some counting_normalizer) r "train" 0%nat in
  res (run (Some (VFloat "0.01"))) = res (run None)
  /\ world (run (Some (VFloat "0.01"))) = world (run None)
  /\ calls_but (Lib "tl" "RandomUniformInitializer")
       (calls (run (Some (VFloat "0.01"))))
     = calls_but (Lib "tl" "RandomUniformInitializer") (calls (run None)).
Proof.
  apply (PolicyAndValue_ignores_head_init_range nat (symbolic nat)
           four_actions (Some dense_body) (default_policy_top (symbolic nat))
           (default_value_top (symbolic nat)) (Some counting_normalizer)
           "train").
  intros r. exists (initializer_of r). reflexivity.
Defined.


(** The same libraries are not pure as a whole: code that configures gin
    leaves its mark on them. *)
Example counting_host_counts_gin_bindings :
  world (inputs_test.t5_gin_config counting_host 0%nat) = 14%nat.
Proof. vm_compute. reflexivity. Qed.

Lemma Policy_head_kernel_initializer_witness :
  exists kw,
    kwargs_given_to (Lib "tl" "Dense")
      (calls (Policy (symbolic nat) four_actions (Some dense_body)
                     (Some counting_normalizer) (Some (VFloat "0.01"))
                     "train" 0%nat)) = [kw]
    /\ kwarg "kernel_initializer" kw
       = Some (VObj "tl" "RandomUniformInitializer" []
                    [("lim", VFloat "0.01")])
    /\ (kwarg "kernel_initializer" kw <> None
        <-> Some (VFloat "0.01") <> None)
    /\ (Some (VFloat "0.01") = None -> kw = []).
Proof.
  apply (Policy_head_kernel_initializer nat four_actions (Some dense_body)
           (Some counting_normalizer) (Some (VFloat "0.01")) "train"
           0%nat 1%nat 1%nat
           (VList [VObj "tl" "LayerNorm" [] []])
           (VList [VObj "tl" "Dense" [VInt 64] []]));
    reflexivity.
Defined.

Lemma None_is_the_empty_layer_list_witness :
  Policy (symbolic nat) four_actions None None None "train" 0%nat
  = Policy (symbolic nat) four_actions
           (Some (fun _ w => (Returned (VList []), w))) None None "train"
           0%nat.
Proof.
  exact (proj1 (proj1
    (None_is_the_empty_layer_list nat (symbolic nat)
       (fun _ w => (Returned (VList []), w)) (fun _ _ => eq_refl)
       four_actions None None (default_policy_top (symbolic nat))
       (default_value_top (symbolic nat)) None false 1 64 "train" 0%nat))).
Defined.

(** Each name of [tl_surface] is called by some factory: [Value] with an
    injector and [PolicyAndValue] with an initializer cover the six. *)
Example every_surface_name_is_called :
  incl tl_surface
       (tl_names (calls (Value (symbolic unit) None None true 1 64 "train"
                               tt))
        ++ tl_names (calls (PolicyAndValue (symbolic unit) four_actions None
                              (default_policy_top (symbolic unit))
                              (default_value_top (symbolic unit)) None
                              (Some (VFloat "0.01")) "train" tt))).
Proof.
  intros n Hn. vm_compute. vm_compute in Hn.
  repeat (destruct Hn as [<- | Hn]; [tauto |]). destruct Hn.
Qed.

(** Purity is relative to what is passed in: a normalizer that counts its
    calls makes [Policy] count them. *)
Example Policy_runs_its_normalizer :
  world (Policy (symbolic nat) four_actions None (Some counting_normalizer)
                None "train" 0%nat) = 1%nat.
Proof. reflexivity. Qed.

End RlProps.

(** ** Properties of the test methods of [inputs_test.py] *)

Module InputsTestProps.

Import rl inputs_test.

(** A recorded call is [gin.bind_parameter(key, ...)]. *)
Definition binds (key : string) (ev : event) : bool :=
  calls_to (Lib "gin" "bind_parameter") ev
  && match ev_args ev with
     | VStr k :: _ => String.eqb k key
     | _ => false
     end.

(** The four T5 preprocessors, in pipeline order. *)
Definition t5_preprocessors : value :=
  VList [VAttr "t5_processors" "select_random_chunk";
         VAttr "t5_processors" "reduce_concat_tokens";
         VAttr "t5_processors" "split_tokens";
         VAttr "t5_processors" "denoise"].

(** A recorded call binds some other parameter, or is no binding. *)
Definition elsewhere (ev : event) : Prop :=
  binds "unsupervised.preprocessors" ev = false.

(** A library in which [tl.Dense] rejects its argument. *)
Definition dense_rejects : host unit :=
  {| host_call := fun c args kw w =>
       if calls_to (Lib "tl" "Dense") (Ev c args kw None)
       then (Raised (Exn "ValueError" "n_units"), w)
       else symbolic_call c args kw w;
     host_next := fun _ w => (Returned None, w) |}.

(** A dataset of two examples, then exhausted. *)
Definition two_examples : host nat :=
  {| host_call := symbolic_call;
     host_next := fun it n =>
       match n with
       | 0%nat | 1%nat =>
           (Returned (Some (VObj "tfds" "example" [VInt (Z.of_nat n)] [])),
            S n)
       | _ => (Returned None, 0%nat)
       end |}.

(** A gin that keeps its bindings, as a dict, in the world. *)
Definition gin_registry : host kwargs :=
  {| host_call := fun c args kw reg =>
       match calls_to (Lib "gin" "bind_parameter") (Ev c args kw None), args
       with
       | true, [VStr key; v] => (Returned VNone, setitem key v reg)
       | _, _ => symbolic_call c args kw reg
       end;
     host_next := fun _ reg => (Returned None, reg) |}.

Lemma filter_none {X} (f : X -> bool) (l : list X) :
  Forall (fun x => f x = false) l -> filter f l = [].
Proof.
  induction 1 as [| x l Hx _ IH]; simpl; [reflexivity|].
  rewrite Hx. exact IH.
Qed.

Section AnyHost.

Context {World : Type} (h : host World) (_TESTDATA : value).

Lemma transparent_for_each {S} fuel it (body : value -> S -> M World S) :
  (forall v s, transparent (body v s)) ->
  forall s, transparent (for_each h fuel it body s).
Proof.
  intros Hbody. induction fuel as [| fuel IH]; intros s; simpl.
  - intros w. constructor.
  - apply transparent_bind; [apply transparent_perform|].
    intros [v |]; [| apply transparent_ret].
    apply transparent_bind; [apply Hbody | exact IH].
Qed.

Lemma transparent_for_list {X} (xs : list X) (body : X -> M World unit) :
  (forall x, transparent (body x)) -> transparent (for_list xs body).
Proof.
  intros Hbody. induction xs as [| x xs IH]; simpl.
  - apply transparent_ret.
  - apply transparent_bind; [apply Hbody | intros _; exact IH].
Qed.

Ltac passes :=
  repeat first
    [ apply transparent_ret
    | apply transparent_perform
    | apply transparent_for_each; intros ? ?
    | apply transparent_for_list; intros ?
    | apply transparent_bind; [| intros ? ]
    | match goal with
      | p : (_ * _)%type |- _ => destruct p
      end ].

Lemma t5_gin_config_transparent : transparent (t5_gin_config h).
Proof. unfold t5_gin_config, bind_parameter, call. passes. Qed.

Lemma first_example_transparent d : transparent (first_example h d).
Proof. unfold first_example, getitem, call. passes. Qed.

Lemma examine_transparent fuel d :
  transparent (examine_processed_dataset h fuel d).
Proof.
  unfold examine_processed_dataset, getitem, getattr, len, self_call, call.
  passes.
Qed.

Lemma setUp_transparent : transparent (setUp h).
Proof. unfold setUp, call. passes. Qed.

Lemma test_batch_data_transparent : transparent (test_batch_data h).
Proof.
  unfold test_batch_data, getitem, getattr, len, self_call, call. passes.
Qed.

Lemma test_pad_to_max_dims_transparent :
  transparent (test_pad_to_max_dims h).
Proof.
  unfold test_pad_to_max_dims, pad_case, getattr, self_call, call. passes.
Qed.

Lemma test_c4_bare_preprocess_fun_transparent :
  transparent (test_c4_bare_preprocess_fun h _TESTDATA).
Proof.
  unfold test_c4_bare_preprocess_fun.
  repeat first [ apply first_example_transparent
               | apply transparent_bind; [| intros ? ] ];
    unfold _c4_dataset, testdata_spm, getitem, getattr, len, self_call,
      call; passes.
Qed.

Lemma test_c4_preprocess_transparent fuel :
  transparent (test_c4_preprocess h _TESTDATA fuel).
Proof.
  unfold test_c4_preprocess.
  repeat first [ apply examine_transparent
               | apply transparent_bind; [| intros ? ]
               | match goal with
                 | p : (_ * _)%type |- _ => destruct p
                 end ];
    unfold load_c4_dataset, _c4_dataset, testdata_spm, unpack2, getitem,
      getattr, len, self_call, call; passes.
Qed.

Lemma test_c4_transparent : transparent (test_c4 h _TESTDATA).
Proof. unfold test_c4, bind_parameter, testdata_spm, call. passes. Qed.

Lemma test_denoising_transparent :
  transparent (test_c4_bare_preprocess_fun_denoising_objective h _TESTDATA).
Proof.
  unfold test_c4_bare_preprocess_fun_denoising_objective.
  repeat first [ apply t5_gin_config_transparent
               | apply first_example_transparent
               | apply transparent_bind; [| intros ? ]
               | match goal with
                 | p : (_ * _)%type |- _ => destruct p
                 end ];
    unfold _c4_dataset, _spm_path, testdata_spm, unpack2, getitem,
      getattr, len, self_call, call; passes.
Qed.

Lemma test_c4_pretrain_transparent :
  transparent (test_c4_pretrain h _TESTDATA).
Proof.
  unfold test_c4_pretrain.
  apply transparent_bind; [apply t5_gin_config_transparent | intros _].
  unfold bind_parameter, testdata_spm, call. passes.
Qed.

Lemma head_kwargs_transparent r : transparent (head_kwargs h r).
Proof. destruct r; simpl; unfold call; passes. Qed.

Lemma Policy_transparent pd body normalizer r mode :
  transparent (Policy h pd body normalizer r mode).
Proof.
  unfold Policy.
  apply transparent_bind; [apply head_kwargs_transparent | intros kw].
  unfold invoke, call. passes.
Qed.

Lemma Value_transparent body normalizer ia nl dim mode :
  transparent (Value h body normalizer ia nl dim mode).
Proof.
  unfold Value, ActionInjector, invoke, call. destruct ia; passes.
Qed.

Lemma PolicyAndValue_transparent pd body ptop vtop normalizer r mode :
  transparent (PolicyAndValue h pd body ptop vtop normalizer r mode).
Proof.
  unfold PolicyAndValue.
  apply transparent_bind; [apply head_kwargs_transparent | intros kw].
  unfold invoke_policy_top, invoke, call. passes.
Qed.

End AnyHost.

Section Bindings.

Context {World : Type} (h : host World).

(** Everything [t5_gin_config] does after its first statement binds
    other parameters. *)
Ltac other_keys :=
  repeat first
    [ apply logs_ret
    | apply logs_perform; intros ?; reflexivity
    | apply logs_bind; [| intros ? ] ].

Lemma t5_gin_config_calls w :
  exists r rest,
    calls (t5_gin_config h w)
    = Ev (Lib "gin" "bind_parameter")
         [VStr "unsupervised.preprocessors"; t5_preprocessors] [] r
      :: rest
    /\ Forall elsewhere rest.
Proof.
  unfold t5_gin_config. rewrite calls_bind.
  unfold bind_parameter at 1 2, call at 1 2. rewrite calls_perform.
  eexists; eexists; split; [reflexivity|].
  match goal with
  | |- context [res ?o] => destruct (res o)
  end; [| constructor..].
  match goal with
  | |- Forall _ (calls (?m ?w')) =>
      cut (logs elsewhere m); [intros Hl; exact (Hl w') |]
  end.
  unfold bind_parameter, call. other_keys.
Qed.

End Bindings.

(** C8. [t5_gin_config] binds the gin parameter
    ['unsupervised.preprocessors'] once, whatever gin and T5 do, and binds
    it to the list of [select_random_chunk], [reduce_concat_tokens],
    [split_tokens] and [denoise], in that order. *)
Theorem t5_gin_config_binds_preprocessors :
  forall (World : Type) (h : host World) (w : World),
    map (fun ev => (ev_args ev, ev_kwargs ev))
        (filter (binds "unsupervised.preprocessors")
                (calls (t5_gin_config h w)))
    = [([VStr "unsupervised.preprocessors";
         VList [VAttr "t5_processors" "select_random_chunk";
                VAttr "t5_processors" "reduce_concat_tokens";
                VAttr "t5_processors" "split_tokens";
                VAttr "t5_processors" "denoise"]],
        [])].
Proof.
  intros. destruct (t5_gin_config_calls h w) as (r & rest & -> & Hrest).
  cbn. rewrite (filter_none _ _ Hrest). reflexivity.
Qed.

(** C9. Nothing in [rl.py] or [inputs_test.py] handles an exception: in
    every call of [Policy], [Value], [PolicyAndValue] or a method of
    [InputsTest], an exception raised by any call made (a layer
    constructor, a callable passed in, the dataset, gin or T5 API, a test
    assertion) is the outcome of the whole call, unchanged; and an exception
    that comes out is the one raised by the last call made, so none is
    caught, replaced, or made up. *)
Theorem exceptions_pass_through :
  forall (World : Type) (h : host World) (_TESTDATA : value) pd body
         normalizer policy_top value_top head_init_range inject_actions
         inject_actions_n_layers inject_actions_dim mode fuel (w : World),
    uncaught (Policy h pd body normalizer head_init_range mode w)
    /\ uncaught (Value h body normalizer inject_actions
                       inject_actions_n_layers inject_actions_dim mode w)
    /\ uncaught (PolicyAndValue h pd body policy_top value_top normalizer
                                head_init_range mode w)
    /\ uncaught (setUp h w)
    /\ uncaught (test_batch_data h w)
    /\ uncaught (test_pad_to_max_dims h w)
    /\ uncaught (test_c4_bare_preprocess_fun h _TESTDATA w)
    /\ uncaught (test_c4_preprocess h _TESTDATA fuel w)
    /\ uncaught (test_c4 h _TESTDATA w)
    /\ uncaught (t5_gin_config h w)
    /\ uncaught (test_c4_bare_preprocess_fun_denoising_objective
                   h _TESTDATA w)
    /\ uncaught (test_c4_pretrain h _TESTDATA w).
Proof.
  intros. repeat match goal with |- _ /\ _ => split end;
    apply propagates_uncaught.
  - apply Policy_transparent.
  - apply Value_transparent.
  - apply PolicyAndValue_transparent.
  - apply setUp_transparent.
  - apply test_batch_data_transparent.
  - apply test_pad_to_max_dims_transparent.
  - apply test_c4_bare_preprocess_fun_transparent.
  - apply test_c4_preprocess_transparent.
  - apply test_c4_transparent.
  - apply t5_gin_config_transparent.
  - apply test_denoising_transparent.
  - apply test_c4_pretrain_transparent.
Qed.

(** *** Concrete runs *)

Example Policy_raises_what_Dense_raises :
  res (Policy dense_rejects {| n_inputs := 0 |} None None None "train" tt)
  = Raised (Exn "ValueError" "n_units").
Proof. reflexivity. Qed.

Example PolicyAndValue_raises_what_policy_top_raises :
  res (PolicyAndValue dense_rejects {| n_inputs := 0 |} None
         (default_policy_top dense_rejects)
         (default_value_top dense_rejects) None None "train" tt)
  = Raised (Exn "ValueError" "n_units").
Proof. reflexivity. Qed.

Example test_c4_preprocess_runs_to_the_end :
  res (test_c4_preprocess two_examples (VStr "testdata") 3 0%nat)
  = Returned tt.
Proof. reflexivity. Qed.

Example test_c4_preprocess_needs_its_rounds :
  res (test_c4_preprocess two_examples (VStr "testdata") 2 0%nat)
  = Unfinished.
Proof. reflexivity. Qed.

Example t5_gin_config_makes_fourteen_calls :
  List.length (calls (t5_gin_config (symbolic unit) tt)) = 14%nat.
Proof. reflexivity. Qed.

Example t5_gin_config_leaves_the_preprocessors_bound :
  kwarg "unsupervised.preprocessors"
        (world (t5_gin_config gin_registry
                  [("unsupervised.preprocessors", VList [])]))
  = Some t5_preprocessors.
Proof. reflexivity. Qed.

End InputsTestProps.

(** ** More about the factories of [rl.py]: order, forwarding, edges *)

Module RlMore.

Import rl RlProps.

(** The calls of [head_kwargs], by target. *)
Definition head_kwargs_script (head_init_range : option value)
  : list callee :=
  match head_init_range with
  | Some _ => [Lib "tl" "RandomUniformInitializer"]
  | None => []
  end.

(** The calls of [Policy], by target, in source order. *)
Definition Policy_script (head_init_range : option value) : list callee :=
  head_kwargs_script head_init_range
  ++ [Fn "normalizer"; Fn "body"; Lib "tl" "Dense"; Lib "tl" "Serial"].

(** The calls of [ActionInjector], by target, in source order. *)
Definition ActionInjector_script (inject_actions : bool) : list callee :=
  if inject_actions
  then [Lib "tl" "Dense"; Lib "tl" "Dense"; Lib "tl" "Parallel";
        Lib "tl" "Add"; Lib "models" "PureMLP"; Lib "tl" "Serial"]
  else [].

(** The calls of [Value], by target, in source order. *)
Definition Value_script (inject_actions : bool) : list callee :=
  [Fn "normalizer"; Fn "body"]
  ++ ActionInjector_script inject_actions
  ++ [Lib "tl" "Dense"; Lib "tl" "Serial"].

(** The calls of [PolicyAndValue], by target, in source order. *)
Definition PolicyAndValue_script (head_init_range : option value)
  : list callee :=
  head_kwargs_script head_init_range
  ++ [Fn "normalizer"; Fn "body"; Fn "policy_top"; Fn "value_top";
      Lib "tl" "Branch"; Lib "tl" "Serial"].

(** A recorded call that takes [mode] gets the given one: the callables and
    [models.PureMLP] do take it. *)
Definition carries_mode (mode : string) (ev : event) : Prop :=
  match target ev with
  | Fn _ | Lib "models" _ => kwarg "mode" (ev_kwargs ev) = Some (VStr mode)
  | _ => kwarg "mode" (ev_kwargs ev) = None
  end.

(** A recorded call of [models.PureMLP] gets [widths] as [layer_widths]. *)
Definition widths_given (widths : list value) (ev : event) : Prop :=
  calls_to (Lib "models" "PureMLP") ev = true ->
  kwarg "layer_widths" (ev_kwargs ev) = Some (VTuple widths).

Section AnyHost.

Context {World : Type} (h : host World).

Ltac scripts :=
  repeat first
    [ apply scripted_ret
    | apply scripted_perform; intros ?; reflexivity
    | apply scripted_step; [intros ?; reflexivity | intros ?] ].

Lemma head_kwargs_scripted r :
  scripted target (head_kwargs_script r) (head_kwargs h r).
Proof. destruct r as [r |]; simpl; unfold call; scripts. Qed.

Lemma ActionInjector_scripted ia nl dim mode :
  scripted target (ActionInjector_script ia)
           (ActionInjector h ia nl dim mode).
Proof. destruct ia; simpl; unfold call; scripts. Qed.

Lemma Policy_scripted pd body normalizer r mode :
  scripted target (Policy_script r) (Policy h pd body normalizer r mode).
Proof.
  unfold Policy, Policy_script.
  apply scripted_bind; [apply head_kwargs_scripted | intros kw].
  unfold invoke, call. scripts.
Qed.

Lemma Value_scripted body normalizer ia nl dim mode :
  scripted target (Value_script ia)
           (Value h body normalizer ia nl dim mode).
Proof.
  unfold Value, Value_script, invoke.
  apply scripted_step; [intros ?; reflexivity | intros n].
  apply scripted_step; [intros ?; reflexivity | intros b].
  apply scripted_bind; [apply ActionInjector_scripted | intros a].
  unfold call. scripts.
Qed.

Lemma PolicyAndValue_scripted pd body ptop vtop normalizer r mode :
  scripted target (PolicyAndValue_script r)
           (PolicyAndValue h pd body ptop vtop normalizer r mode).
Proof.
  unfold PolicyAndValue, PolicyAndValue_script.
  apply scripted_bind; [apply head_kwargs_scripted | intros kw].
  unfold invoke_policy_top, invoke, call. scripts.
Qed.

Ltac every_call :=
  repeat first
    [ apply logs_ret
    | apply logs_perform; intros ?; first [ reflexivity | discriminate ]
    | apply logs_bind; [| intros ? ] ].

Lemma head_kwargs_carries mode r : logs (carries_mode mode) (head_kwargs h r).
Proof. destruct r as [r |]; simpl; unfold call; every_call. Qed.

(** [head_kwargs] holds at most the initializer: no [mode]. *)
Lemma head_kwargs_has_no_mode r w kw :
  res (head_kwargs h r w) = Returned kw -> kwarg "mode" kw = None.
Proof.
  destruct r as [r |]; simpl.
  - intros H. apply res_bind_returned in H. destruct H as (init & _ & H).
    injection H as <-. reflexivity.
  - intros [= <-]. reflexivity.
Qed.

Lemma Policy_carries pd body normalizer r mode :
  logs (carries_mode mode) (Policy h pd body normalizer r mode).
Proof.
  unfold Policy.
  apply logs_bind_where with (Q := fun kw => kwarg "mode" kw = None);
    [apply head_kwargs_carries | apply head_kwargs_has_no_mode |].
  intros kw Hkw. unfold invoke, call.
  apply logs_bind; [every_call | intros n].
  apply logs_bind; [every_call | intros b].
  apply logs_bind; [| intros d; every_call].
  apply logs_perform. intros o. exact Hkw.
Qed.

Lemma Value_carries body normalizer ia nl dim mode :
  logs (carries_mode mode) (Value h body normalizer ia nl dim mode).
Proof.
  unfold Value, ActionInjector, invoke, call. destruct ia; every_call.
Qed.

Lemma PolicyAndValue_carries pd body ptop vtop normalizer r mode :
  logs (carries_mode mode)
       (PolicyAndValue h pd body ptop vtop normalizer r mode).
Proof.
  unfold PolicyAndValue.
  apply logs_bind; [apply head_kwargs_carries | intros kw].
  unfold invoke_policy_top, invoke, call. every_call.
Qed.

Lemma Value_widths body normalizer ia nl dim mode :
  logs (widths_given (tuple_repeat (VInt dim) nl))
       (Value h body normalizer ia nl dim mode).
Proof.
  unfold Value, ActionInjector, invoke, call.
  destruct ia;
    repeat first
      [ apply logs_ret
      | apply logs_perform; intros ? ?; first [ reflexivity | discriminate ]
      | apply logs_bind; [| intros ? ] ].
Qed.

End AnyHost.

(** X1. Without action injection the two injector sizes are dead
    arguments: [Value(..., inject_actions=False, ...)] runs the same, call
    for call, whatever [inject_actions_n_layers] and [inject_actions_dim]
    are, against any library. *)
Theorem Value_without_injection_ignores_its_sizes :
  forall (World : Type) (h : host World) body normalizer n1 dim1 n2 dim2
         mode (w : World),
    Value h body normalizer false n1 dim1 mode w
    = Value h body normalizer false n2 dim2 mode w.
Proof. reflexivity. Qed.

(** X2. Whatever [Value] hands to [models.PureMLP] as [layer_widths] is a
    tuple of [inject_actions_n_layers] copies of [inject_actions_dim]; with
    zero or a negative number of layers it is the empty tuple. *)
Theorem Value_injector_layer_widths :
  forall (World : Type) (h : host World) body normalizer inject_actions
         inject_actions_n_layers inject_actions_dim mode (w : World),
  exists widths,
    Forall (widths_given widths)
      (calls (Value h body normalizer inject_actions
                    inject_actions_n_layers inject_actions_dim mode w))
    /\ List.length widths = Z.to_nat inject_actions_n_layers
    /\ Forall (eq (VInt inject_actions_dim)) widths
    /\ (inject_actions_n_layers <= 0 -> widths = []).
Proof.
  intros. exists (tuple_repeat (VInt inject_actions_dim)
                               inject_actions_n_layers).
  split; [apply Value_widths |]. unfold tuple_repeat.
  split; [apply repeat_length |]. split.
  - apply Forall_forall. intros x Hx. symmetry.
    exact (repeat_spec _ _ _ Hx).
  - intros Hn. replace (Z.to_nat inject_actions_n_layers) with 0%nat by lia.
    reflexivity.
Qed.

(** X3. [mode] is forwarded, unchanged, to every callable ([normalizer],
    [body], [policy_top], [value_top]) and to [models.PureMLP]; the [tl]
    constructors are never given a [mode]. *)
Theorem mode_reaches_every_callable :
  forall (World : Type) (h : host World) pd body normalizer policy_top
         value_top head_init_range inject_actions inject_actions_n_layers
         inject_actions_dim mode (w : World),
    Forall (carries_mode mode)
      (calls (Policy h pd body normalizer head_init_range mode w))
    /\ Forall (carries_mode mode)
         (calls (Value h body normalizer inject_actions
                       inject_actions_n_layers inject_actions_dim mode w))
    /\ Forall (carries_mode mode)
         (calls (PolicyAndValue h pd body policy_top value_top normalizer
                                head_init_range mode w)).
Proof.
  intros. split; [apply Policy_carries |].
  split; [apply Value_carries | apply PolicyAndValue_carries].
Qed.

(** X4. [Policy] makes its calls in one order: the initializer (only with a
    [head_init_range]), the normalizer, the body, [tl.Dense], [tl.Serial].
    Each is made at most once, and only when none before it raised: after a
    call that raises nothing more is called, so no layer is built when the
    normalizer or the body raised.  When [Policy] returns, all were made. *)
Theorem Policy_call_order :
  forall (World : Type) (h : host World) pd body normalizer head_init_range
         mode (w : World),
    let o := Policy h pd body normalizer head_init_range mode w in
    follows target (Policy_script head_init_range) o
    /\ (forall l1 ev l2, calls o = l1 ++ ev :: l2 -> quiet l1).
Proof.
  intros. split; [apply Policy_scripted |].
  intros l1 ev l2 Hc.
  exact (earlier_calls_returned _ _ _ _
           (InputsTestProps.Policy_transparent h pd body normalizer
              head_init_range mode w) Hc).
Qed.

(** X5. [Value] makes its calls in one order: the normalizer, the body,
    the six calls of the injector (only with [inject_actions]), then
    [tl.Dense], [tl.Serial].  Each is made only when none before it raised:
    [Value] stops at the first call that raises.  It calls into [models]
    only when injecting. *)
Theorem Value_call_order :
  forall (World : Type) (h : host World) body normalizer inject_actions
         inject_actions_n_layers inject_actions_dim mode (w : World),
    let o := Value h body normalizer inject_actions inject_actions_n_layers
                   inject_actions_dim mode w in
    follows target (Value_script inject_actions) o
    /\ (forall l1 ev l2, calls o = l1 ++ ev :: l2 -> quiet l1).
Proof.
  intros. split; [apply Value_scripted |].
  intros l1 ev l2 Hc.
  exact (earlier_calls_returned _ _ _ _
           (InputsTestProps.Value_transparent h body normalizer
              inject_actions inject_actions_n_layers inject_actions_dim
              mode w) Hc).
Qed.

(** X6. [PolicyAndValue] makes its calls in one order: the initializer
    (only with a [head_init_range]), the normalizer, the body, [policy_top],
    [value_top], [tl.Branch], [tl.Serial].  The shared body is called at
    most once, and each call is made only when none before it raised: when
    [policy_top] raises, [value_top] is never called. *)
Theorem PolicyAndValue_call_order :
  forall (World : Type) (h : host World) pd body policy_top value_top
         normalizer head_init_range mode (w : World),
    let o := PolicyAndValue h pd body policy_top value_top normalizer
                            head_init_range mode w in
    follows target (PolicyAndValue_script head_init_range) o
    /\ (forall l1 ev l2, calls o = l1 ++ ev :: l2 -> quiet l1).
Proof.
  intros. split; [apply PolicyAndValue_scripted |].
  intros l1 ev l2 Hc.
  exact (earlier_calls_returned _ _ _ _
           (InputsTestProps.PolicyAndValue_transparent h pd body policy_top
              value_top normalizer head_init_range mode w) Hc).
Qed.

(** X7. [PolicyAndValue] with its default heads builds the policy head
    without an initializer even when given a [head_init_range]: its policy
    head is not the network [Policy] builds from the same
    [head_init_range]. *)
Theorem PolicyAndValue_policy_head_has_no_initializer :
  forall (World : Type) pd r mode (w : World),
    returns
      (PolicyAndValue (symbolic World) pd None
         (default_policy_top (symbolic World))
         (default_value_top (symbolic World)) None (Some r) mode)
      w
      (VObj "tl" "Serial"
         [VList []; VList [];
          VObj "tl" "Branch"
            [VObj "tl" "Serial"
               [VList []; VList [];
                VObj "tl" "Dense" [VInt (n_inputs pd)] []] [];
             default_value_head] []] [])
      w
    /\ returns (Policy (symbolic World) pd None None (Some r) mode) w
         (VObj "tl" "Serial"
            [VList []; VList [];
             VObj "tl" "Dense" [VInt (n_inputs pd)]
               [("kernel_initializer",
                 VObj "tl" "RandomUniformInitializer" [] [("lim", r)])]]
            [])
         w.
Proof.
  intros. split.
  - apply PolicyAndValue_run with (w1 := w) (w2 := w) (w3 := w);
      first [ reflexivity
            | apply default_policy_top_symbolic
            | apply default_value_top_symbolic ].
  - exact (Policy_returns pd None None (Some r) mode w w w _ _
                          eq_refl eq_refl).
Qed.

(** *** The orders at runs in which a call raises *)

(** A [policy_top] that raises. *)
Definition failing_policy_top : policy_callable (World:=unit) :=
  fun _ _ w => (Raised (Exn "ValueError" "policy_top"), w).

Lemma Policy_call_order_witness :
  quiet (firstn 2 (calls (Policy InputsTestProps.dense_rejects
                                 {| n_inputs := 0 |} None None None "train"
                                 tt))).
Proof.
  apply (proj2 (Policy_call_order unit InputsTestProps.dense_rejects
                  {| n_inputs := 0 |} None None None "train" tt)
               (firstn 2 (calls (Policy InputsTestProps.dense_rejects
                                        {| n_inputs := 0 |} None None None
                                        "train" tt)))
               (Ev (Lib "tl" "Dense") [VInt 0] []
                   (Some (Exn "ValueError" "n_units")))
               []).
  vm_compute. reflexivity.
Defined.

Lemma Value_call_order_witness :
  quiet (firstn 2 (calls (Value InputsTestProps.dense_rejects None None true
                                1 64 "train" tt))).
Proof.
  apply (proj2 (Value_call_order unit InputsTestProps.dense_rejects None
                  None true 1 64 "train" tt)
               (firstn 2 (calls (Value InputsTestProps.dense_rejects None
                                       None true 1 64 "train" tt)))
               (Ev (Lib "tl" "Dense") [VInt 64] []
                   (Some (Exn "ValueError" "n_units")))
               []).
  vm_compute. reflexivity.
Defined.

Lemma PolicyAndValue_call_order_witness :
  quiet (firstn 2 (calls (PolicyAndValue (symbolic unit)
                            {| n_inputs := 4 |} None failing_policy_top
                            (default_value_top (symbolic unit)) None None
                            "train" tt))).
Proof.
  apply (proj2 (PolicyAndValue_call_order unit (symbolic unit)
                  {| n_inputs := 4 |} None failing_policy_top
                  (default_value_top (symbolic unit)) None None "train" tt)
               (firstn 2 (calls (PolicyAndValue (symbolic unit)
                                   {| n_inputs := 4 |} None
                                   failing_policy_top
                                   (default_value_top (symbolic unit)) None
                                   None "train" tt)))
               (Ev (Fn "policy_top") []
                   [("policy_distribution", VOpaque "policy_distribution");
                    ("mode", VStr "train")]
                   (Some (Exn "ValueError" "policy_top")))
               []).
  vm_compute. reflexivity.
Defined.

(** When [policy_top] raises, the run ends there: [value_top] was not
    called, and nothing was built. *)
Example PolicyAndValue_stops_at_policy_top :
  map target (calls (PolicyAndValue (symbolic unit) {| n_inputs := 4 |}
                       None failing_policy_top
                       (default_value_top (symbolic unit)) None None
                       "train" tt))
  = [Fn "normalizer"; Fn "body"; Fn "policy_top"].
Proof. vm_compute. reflexivity. Qed.

End RlMore.

(** ** More about [inputs_test.py]: configuration order, loops, the
       generator *)

Module InputsTestMore.

Import inputs_test InputsTestProps.

(** What the order of the calls of a test is stated in: the target of the
    call and, for [gin.bind_parameter], the parameter it names. *)
Definition step : Type := (callee * option string)%type.

Definition is_bind (c : callee) : bool :=
  match c with
  | Lib m n => String.eqb m "gin" && String.eqb n "bind_parameter"
  | _ => false
  end.

Definition step_of (ev : event) : step :=
  (target ev,
   if is_bind (target ev)
   then match ev_args ev with
        | VStr key :: _ => Some key
        | _ => None
        end
   else None).

(** [gin.bind_parameter(key, ...)] as a step. *)
Definition binding (key : string) : step :=
  (Lib "gin" "bind_parameter", Some key).

Definition plain (c : callee) : step := (c, None).

(** The parameter a step binds, if it is a binding. *)
Definition bound_key (s : step) : list string :=
  match s with
  | (c, Some key) => if is_bind c then [key] else []
  | (_, None) => []
  end.

(** The parameters bound by the calls [l], in call order. *)
Definition bound_keys (l : list event) : list string :=
  flat_map bound_key (map step_of l).

Definition random_spans_tokens_length : callee :=
  Lib "t5_processors" "random_spans_tokens_length".

(** The steps of [t5_gin_config] up to its one call into T5. *)
Definition t5_gin_config_first : list step :=
  [binding "unsupervised.preprocessors";
   binding "select_random_chunk.feature_key";
   binding "select_random_chunk.max_length";
   binding "random_spans_helper.extra_tokens_per_span_inputs";
   binding "random_spans_helper.extra_tokens_per_span_targets";
   binding "random_spans_helper.inputs_length";
   binding "random_spans_helper.mean_noise_span_length";
   binding "random_spans_helper.noise_density"].

(** The steps of [t5_gin_config] after it. *)
Definition t5_gin_config_last : list step :=
  [binding "split_tokens.max_tokens_per_segment";
   binding "denoise.inputs_fn";
   binding "denoise.noise_density";
   binding "denoise.noise_mask_fn";
   binding "denoise.targets_fn"].

Definition t5_gin_config_script : list step :=
  t5_gin_config_first
  ++ plain random_spans_tokens_length :: t5_gin_config_last.

Definition test_c4_script : list step :=
  [binding "shuffle_and_batch_data.preprocess_fun";
   binding "c4_preprocess.max_target_length";
   binding "c4_preprocess.tokenization";
   plain (Lib "os.path" "join");
   binding "c4_preprocess.spm_path";
   binding "batch_fn.batch_size_per_device";
   binding "batch_fn.eval_batch_size";
   binding "batch_fn.max_eval_length";
   binding "batch_fn.buckets";
   plain (Lib "inputs" "inputs")].

Definition test_c4_pretrain_script : list step :=
  t5_gin_config_script
  ++ [binding "shuffle_and_batch_data.bare_preprocess_fun";
      plain (Lib "os.path" "join");
      binding "c4_bare_preprocess_fun.spm_path";
      binding "batch_fn.batch_size_per_device";
      binding "batch_fn.eval_batch_size";
      binding "batch_fn.max_eval_length";
      binding "batch_fn.buckets";
      plain (Lib "inputs" "inputs")].

(** The parameters of [random_spans_helper], which
    [random_spans_tokens_length] reads. *)
Definition random_spans_helper_keys : list string :=
  ["random_spans_helper.extra_tokens_per_span_inputs";
   "random_spans_helper.extra_tokens_per_span_targets";
   "random_spans_helper.inputs_length";
   "random_spans_helper.mean_noise_span_length";
   "random_spans_helper.noise_density"].

(** [inputs.inputs(...)] as a step. *)
Definition inputs_inputs : step := plain (Lib "inputs" "inputs").

(** The steps of [test_c4] before its call of [inputs.inputs]. *)
Definition test_c4_settings : list step :=
  removelast test_c4_script.

(** The steps of [test_c4_pretrain] before its call of [inputs.inputs]. *)
Definition test_c4_pretrain_settings : list step :=
  removelast test_c4_pretrain_script.

(** A recorded call goes into [trax.supervised.inputs]. *)
Definition into_inputs (ev : event) : bool :=
  match is_lib "inputs" ev with
  | Some _ => true
  | None => false
  end.

(** A recorded call leaves gin alone. *)
Definition not_gin (ev : event) : Prop := is_lib "gin" ev = None.

(** [np.zeros([length], dtype=np.int64)], as recorded. *)
Definition zeros_call (length : Z) : list value * kwargs :=
  ([VList [VInt length]], [("dtype", VAttr "np" "int64")]).

(** A yielded example whose inputs and targets are one and the same
    array. *)
Definition shared_pair (item : value) : Prop :=
  exists x, item = VTuple [x; x].

(** How many of the calls [l] are calls of [c]. *)
Definition count_calls (c : callee) (l : list event) : nat :=
  List.length (filter (calls_to c) l).

(** The same count, on the targets alone. *)
Definition count_targets (c : callee) (ts : list callee) : nat :=
  List.length (filter (fun t => calls_to c (Ev t [] [] None)) ts).

(** [n] is what [len] returned for some object in some state. *)
Definition measured {World} (h : host World) (n : value) : Prop :=
  exists x w1 w2, host_call h (Builtin "len") [x] [] w1 = (Returned n, w2).

(** The calls of one round of the loop of [examine_processed_dataset], by
    target. *)
Definition examine_round : list callee :=
  [Builtin "getitem"; Method "assertIn"; Builtin "getitem";
   Builtin "getattr"; Method "assertEqual"; Builtin "getitem";
   Builtin "len"].

(** [xs] are the arrays [np.zeros([length], dtype=np.int64)] returned for
    the [lengths], one call after the other from state [w], ending in
    state [w']. *)
Fixpoint built_by_zeros {World} (h : host World) (lengths : list Z)
         (w : World) (xs : list value) (w' : World) : Prop :=
  match lengths, xs with
  | [], [] => w' = w
  | length :: lengths', x :: xs' =>
      exists w1,
        host_call h (Lib "np" "zeros") [VList [VInt length]]
                  [("dtype", VAttr "np" "int64")] w = (Returned x, w1)
        /\ built_by_zeros h lengths' w1 xs' w'
  | _, _ => False
  end.

(** [(x, x)] *)
Definition twice (x : value) : value := VTuple [x; x].

(** *** Lists of calls *)

(** What comes before an element that the first part of a list cannot
    hold includes that whole first part. *)
Lemma prefix_before {X} (P : X -> bool) (c1 c2 l1 l2 : list X) (x : X) :
  c1 ++ c2 = l1 ++ x :: l2 ->
  Forall (fun y => P y = false) c1 -> P x = true ->
  exists rest, l1 = c1 ++ rest /\ c2 = rest ++ x :: l2.
Proof.
  revert l1. induction c1 as [| a c1 IH]; intros l1 H Hc Hx; simpl in *.
  - exists l1. split; [reflexivity | exact H].
  - inversion Hc as [| ? ? Ha Hc']; subst. destruct l1 as [| b l1].
    + simpl in H. injection H as -> _. congruence.
    + simpl in H. injection H as -> H.
      destruct (IH l1 H Hc' Hx) as (rest & -> & ->).
      exists rest. split; reflexivity.
Qed.

(** The keys bound by the first steps of a script are bound once when all
    the keys of the script are. *)
Lemma bound_once (script : list step) (l : list event) n :
  map step_of l = firstn n script ->
  NoDup (flat_map bound_key script) -> NoDup (bound_keys l).
Proof.
  intros Hl Hnd. unfold bound_keys. rewrite Hl.
  rewrite <- (firstn_skipn n script), flat_map_app in Hnd.
  exact (NoDup_app_remove_r _ _ Hnd).
Qed.

Ltac distinct :=
  repeat (constructor;
          [ simpl; intros Hin;
            repeat (destruct Hin as [Hin | Hin]; [discriminate Hin |]);
            exact Hin
          | ]);
  constructor.

Lemma t5_gin_config_keys_distinct :
  NoDup (flat_map bound_key t5_gin_config_script).
Proof. cbv. distinct. Qed.

Lemma test_c4_keys_distinct : NoDup (flat_map bound_key test_c4_script).
Proof. cbv. distinct. Qed.

Lemma test_c4_pretrain_keys_distinct :
  NoDup (flat_map bound_key test_c4_pretrain_script).
Proof. cbv. distinct. Qed.

Section AnyHost.

Context {World : Type} (h : host World) (_TESTDATA : value).

(** *** Loops *)

Lemma logs_for_each P {S} fuel it (body : value -> S -> M World S) :
  (forall r, P (Ev (Builtin "for") [it] [] r)) ->
  (forall v s, logs P (body v s)) ->
  forall s, logs P (for_each h fuel it body s).
Proof.
  intros Hnext Hbody. induction fuel as [| fuel IH]; intros s; simpl.
  - intros w. constructor.
  - apply logs_bind; [apply logs_perform; exact Hnext |].
    intros [v |]; [| apply logs_ret].
    apply logs_bind; [apply Hbody | exact IH].
Qed.

Lemma logs_for_list P {X} (xs : list X) (body : X -> M World unit) :
  (forall x, logs P (body x)) -> logs P (for_list xs body).
Proof.
  intros Hbody. induction xs as [| x xs IH]; simpl.
  - apply logs_ret.
  - apply logs_bind; [apply Hbody | intros _; exact IH].
Qed.

(** What every round of a loop keeps, the loop keeps. *)
Lemma for_each_invariant {S} (I : S -> Prop)
      (body : value -> S -> M World S) :
  (forall v s w s', I s -> res (body v s w) = Returned s' -> I s') ->
  forall fuel it s w s',
    I s -> res (for_each h fuel it body s w) = Returned s' -> I s'.
Proof.
  intros Hbody. induction fuel as [| fuel IH]; intros it s w s' Hs H.
  - discriminate H.
  - simpl in H. apply res_bind_returned in H.
    destruct H as ([v |] & _ & H).
    + apply res_bind_returned in H. destruct H as (s1 & H1 & H).
      exact (IH _ _ _ _ (Hbody _ _ _ _ Hs H1) H).
    + injection H as <-. exact Hs.
Qed.

(** *** Orders of calls *)

Ltac steps :=
  repeat first
    [ apply scripted_ret
    | apply scripted_perform; intros ?; reflexivity
    | apply scripted_step; [intros ?; reflexivity | intros ?] ].

Lemma t5_gin_config_scripted :
  scripted step_of t5_gin_config_script (t5_gin_config h).
Proof. unfold t5_gin_config, bind_parameter, call. steps. Qed.

Lemma test_c4_scripted :
  scripted step_of test_c4_script (test_c4 h _TESTDATA).
Proof. unfold test_c4, bind_parameter, testdata_spm, call. steps. Qed.

Lemma test_c4_pretrain_scripted :
  scripted step_of test_c4_pretrain_script (test_c4_pretrain h _TESTDATA).
Proof.
  unfold test_c4_pretrain, test_c4_pretrain_script.
  apply scripted_bind; [apply t5_gin_config_scripted | intros _].
  unfold bind_parameter, testdata_spm, call. steps.
Qed.

Ltac never :=
  repeat first
    [ apply logs_ret
    | apply logs_perform; intros ?; reflexivity
    | apply logs_for_each; [intros ?; reflexivity | intros ? ?]
    | apply logs_for_list; intros ?
    | apply logs_bind; [| intros ? ]
    | match goal with
      | p : (_ * _)%type |- _ => destruct p
      end ].

Lemma t5_gin_config_stays_out_of_inputs :
  logs (fun ev => into_inputs ev = false) (t5_gin_config h).
Proof. unfold t5_gin_config, bind_parameter, call. never. Qed.

(** What is called after [m] and cannot be a call of [m] comes after all
    of [m], which then returned. *)
Lemma after_all_of {A B} (P : event -> bool) (m : M World A)
      (f : A -> M World B) script w l1 ev l2 :
  scripted step_of script m -> transparent m ->
  logs (fun ev => P ev = false) m ->
  calls (bind m f w) = l1 ++ ev :: l2 -> P ev = true ->
  exists cfg rest,
    l1 = cfg ++ rest /\ map step_of cfg = script /\ quiet cfg.
Proof.
  intros Hs Ht Hl Hc Hev. rewrite calls_bind in Hc.
  destruct (prefix_before P _ _ _ _ _ Hc (Hl w) Hev) as (rest & -> & Hrest).
  exists (calls (m w)), rest. split; [reflexivity |].
  specialize (Ht w). unfold propagates in Ht. destruct (Hs w) as [_ Hfull].
  destruct (res (m w)) as [a | e |].
  - split; [exact (Hfull a eq_refl) | exact Ht].
  - destruct rest; discriminate Hrest.
  - destruct rest; discriminate Hrest.
Qed.

End AnyHost.

Section Tests.

Context {World : Type} (h : host World) (_TESTDATA : value).

Ltac leaves_gin_alone :=
  repeat first
    [ apply logs_ret
    | apply logs_perform; intros ?; reflexivity
    | apply logs_for_each; [intros ?; reflexivity | intros ? ?]
    | apply logs_for_list; intros ?
    | apply logs_bind; [| intros ? ]
    | match goal with
      | p : (_ * _)%type |- _ => destruct p
      end ].

Lemma first_example_not_gin d : logs not_gin (first_example h d).
Proof. unfold first_example, getitem, call. leaves_gin_alone. Qed.

Lemma examine_not_gin fuel d :
  logs not_gin (examine_processed_dataset h fuel d).
Proof.
  unfold examine_processed_dataset, getitem, getattr, len, self_call, call.
  leaves_gin_alone.
Qed.

Lemma test_batch_data_not_gin : logs not_gin (test_batch_data h).
Proof.
  unfold test_batch_data, getitem, getattr, len, self_call, call.
  leaves_gin_alone.
Qed.

Lemma test_pad_to_max_dims_not_gin : logs not_gin (test_pad_to_max_dims h).
Proof.
  unfold test_pad_to_max_dims, pad_case, getattr, self_call, call.
  leaves_gin_alone.
Qed.

Lemma test_c4_bare_preprocess_fun_not_gin :
  logs not_gin (test_c4_bare_preprocess_fun h _TESTDATA).
Proof.
  unfold test_c4_bare_preprocess_fun.
  repeat first [ apply first_example_not_gin
               | apply logs_bind; [| intros ? ] ];
    unfold _c4_dataset, testdata_spm, getitem, getattr, len, self_call,
      call; leaves_gin_alone.
Qed.

Lemma test_c4_preprocess_not_gin fuel :
  logs not_gin (test_c4_preprocess h _TESTDATA fuel).
Proof.
  unfold test_c4_preprocess.
  repeat first [ apply examine_not_gin
               | apply logs_bind; [| intros ? ]
               | match goal with
                 | p : (_ * _)%type |- _ => destruct p
                 end ];
    unfold load_c4_dataset, _c4_dataset, testdata_spm, unpack2, getitem,
      getattr, len, self_call, call; leaves_gin_alone.
Qed.

(** [count] and [lengths] of [examine_processed_dataset] grow together. *)
Lemma examine_counts fuel d w count lengths :
  res (examine_processed_dataset h fuel d w) = Returned (count, lengths) ->
  count = Z.of_nat (List.length lengths).
Proof.
  unfold examine_processed_dataset. intros H.
  apply res_bind_returned in H. destruct H as (it & _ & H).
  revert H.
  apply (for_each_invariant h
           (fun s => fst s = Z.of_nat (List.length (snd s))));
    [| reflexivity].
  intros v [c ls] w0 s' Hs H. cbv beta iota in H. simpl in Hs.
  unfold getitem, getattr, len, self_call in H.
  repeat (apply res_bind_returned in H; destruct H as (? & _ & H)).
  injection H as <-. simpl. rewrite length_app, Hs. simpl. lia.
Qed.

Lemma generator_run lengths w items :
  res (generator h lengths w) = Returned items ->
  List.length items = List.length lengths
  /\ Forall shared_pair items
  /\ map (fun ev => (ev_args ev, ev_kwargs ev)) (calls (generator h lengths w))
     = map zeros_call lengths.
Proof.
  revert w items. induction lengths as [| n rest IH]; intros w items H.
  - injection H as <-. repeat split. constructor.
  - simpl in H. simpl generator.
    apply res_bind_returned in H. destruct H as (item & Hitem & H).
    apply res_bind_returned in H. destruct H as (items' & Hrest & H).
    injection H as <-.
    destruct (IH _ _ Hrest) as (Hlen & Hpairs & Hcalls).
    rewrite calls_bind, Hitem, calls_bind, Hrest. simpl (calls (ret _ _)).
    rewrite app_nil_r, map_app, Hcalls.
    unfold generator_round in Hitem |- *.
    pose proof Hitem as Hx. apply res_bind_returned in Hx.
    destruct Hx as (x & Hx & Hpair). injection Hpair as <-.
    rewrite calls_bind, Hx. unfold call at 1. rewrite calls_perform.
    simpl. rewrite Hlen. repeat split.
    constructor; [exists x; reflexivity | exact Hpairs].
Qed.

Lemma count_calls_targets c l :
  count_calls c l = count_targets c (map target l).
Proof.
  unfold count_calls, count_targets. induction l as [| ev l IH]; simpl.
  - reflexivity.
  - change (calls_to c (Ev (target ev) [] [] None)) with (calls_to c ev).
    destruct (calls_to c ev); simpl; rewrite IH; reflexivity.
Qed.

Lemma count_calls_app c l1 l2 :
  count_calls c (l1 ++ l2) = (count_calls c l1 + count_calls c l2)%nat.
Proof. unfold count_calls. rewrite filter_app, length_app. reflexivity. Qed.

(** A loop that returns ran some number [k] of rounds: it stepped the
    dataset [k + 1] times, and what each round adds adds up. *)
Lemma for_each_rounds {S} (size : S -> nat)
      (body : value -> S -> M World S) :
  (forall v s w s',
      res (body v s w) = Returned s' ->
      size s' = Datatypes.S (size s)
      /\ count_calls (Builtin "for") (calls (body v s w)) = 0%nat
      /\ count_calls (Builtin "len") (calls (body v s w)) = 1%nat) ->
  forall fuel it s w s',
    res (for_each h fuel it body s w) = Returned s' ->
    exists k,
      size s' = (size s + k)%nat
      /\ count_calls (Builtin "for") (calls (for_each h fuel it body s w))
         = Datatypes.S k
      /\ count_calls (Builtin "len") (calls (for_each h fuel it body s w))
         = k.
Proof.
  intros Hbody. induction fuel as [| fuel IH]; intros it s w s' H.
  - discriminate H.
  - simpl in H |- *. pose proof H as H0.
    apply res_bind_returned in H0. destruct H0 as (x & Hx & H0).
    rewrite calls_bind, Hx. unfold next_item at 1 3.
    rewrite calls_perform, !count_calls_app.
    destruct x as [v |].
    + pose proof H0 as H1. apply res_bind_returned in H1.
      destruct H1 as (s1 & Hs1 & H1).
      rewrite calls_bind, Hs1, !count_calls_app.
      destruct (Hbody _ _ _ _ Hs1) as (Hsize & Hfor & Hlen).
      destruct (IH _ _ _ _ H1) as (k & Hk & Hkfor & Hklen).
      exists (Datatypes.S k). rewrite Hfor, Hlen, Hkfor, Hklen, Hk, Hsize.
      split; [lia | split; reflexivity].
    + injection H0 as <-. exists 0%nat.
      split; [lia | split; reflexivity].
Qed.

Lemma examine_round_scripted example count lengths :
  scripted target examine_round
    (ex <- getitem h example (VInt 0) ;;
     self_call h "assertIn" [VStr "targets"; ex] ;;;
     t <- getitem h ex (VStr "targets") ;;
     dt <- getattr h t "dtype" ;;
     self_call h "assertEqual" [dt; VAttr "np" "int64"] ;;;
     t <- getitem h ex (VStr "targets") ;;
     n <- len h t ;;
     ret (count + 1, lengths ++ [n])).
Proof.
  unfold getitem, getattr, len, self_call, call.
  repeat first
    [ apply scripted_ret
    | apply scripted_step; [intros ?; reflexivity | intros ?] ].
Qed.

(** What a returning run of [examine_processed_dataset] did. *)
Lemma examine_rounds fuel d w count lengths :
  res (examine_processed_dataset h fuel d w) = Returned (count, lengths) ->
  count_calls (Builtin "for") (calls (examine_processed_dataset h fuel d w))
  = Datatypes.S (List.length lengths)
  /\ count_calls (Builtin "len")
       (calls (examine_processed_dataset h fuel d w))
     = List.length lengths.
Proof.
  unfold examine_processed_dataset. intros H. pose proof H as H0.
  apply res_bind_returned in H0. destruct H0 as (it & Hit & H0).
  rewrite calls_bind, Hit, !count_calls_app. unfold call at 1 3.
  rewrite calls_perform.
  match type of H0 with
  | res (for_each _ _ _ ?body _ _) = _ =>
      assert (Hb : forall v s w0 s',
                 res (body v s w0) = Returned s' ->
                 List.length (snd s') = Datatypes.S (List.length (snd s))
                 /\ count_calls (Builtin "for") (calls (body v s w0)) = 0%nat
                 /\ count_calls (Builtin "len") (calls (body v s w0))
                    = 1%nat);
        [| destruct (for_each_rounds (fun s => List.length (snd s)) body Hb
                       _ _ _ _ _ H0) as (k & Hk & Hfor & Hlen) ]
  end.
  - intros v [c ls] w0 s' Hr. cbv beta iota in Hr |- *.
    destruct (examine_round_scripted v c ls w0) as [_ Hfull].
    specialize (Hfull _ Hr).
    rewrite !count_calls_targets, Hfull.
    repeat (apply res_bind_returned in Hr; destruct Hr as (? & _ & Hr)).
    injection Hr as <-. simpl. rewrite length_app. simpl.
    split; [lia | split; reflexivity].
  - simpl in Hk. rewrite Hfor, Hlen, Hk. split; reflexivity.
Qed.

Lemma examine_measured fuel d w count lengths :
  res (examine_processed_dataset h fuel d w) = Returned (count, lengths) ->
  Forall (measured h) lengths.
Proof.
  unfold examine_processed_dataset. intros H.
  apply res_bind_returned in H. destruct H as (it & _ & H).
  revert H.
  apply (for_each_invariant h (fun s => Forall (measured h) (snd s)));
    [| constructor].
  intros v [c ls] w0 s' Hs H. cbv beta iota in H. simpl in Hs.
  unfold getitem, getattr, len, self_call in H.
  do 6 (apply res_bind_returned in H; destruct H as (? & _ & H)).
  apply res_bind_returned in H. destruct H as (n & Hn & H).
  injection H as <-. simpl. apply Forall_app. split; [exact Hs |].
  constructor; [| constructor]. unfold call in Hn.
  apply perform_returned in Hn. unfold measured. eauto.
Qed.

Lemma generator_built lengths w items :
  res (generator h lengths w) = Returned items ->
  exists xs,
    built_by_zeros h lengths w xs (world (generator h lengths w))
    /\ items = map twice xs.
Proof.
  revert w items. induction lengths as [| n rest IH]; intros w items H.
  - injection H as <-. exists []. split; reflexivity.
  - simpl in H. simpl generator.
    apply res_bind_returned in H. destruct H as (item & Hitem & H).
    apply res_bind_returned in H. destruct H as (items' & Hrest & H).
    injection H as <-.
    rewrite (world_bind_returned _ _ _ _ Hitem).
    rewrite (world_bind_returned _ _ _ _ Hrest).
    cbn [ret world].
    destruct (IH _ _ Hrest) as (xs & Hbuilt & ->).
    unfold generator_round in Hitem, Hbuilt |- *.
    pose proof Hitem as Hx. apply res_bind_returned in Hx.
    destruct Hx as (x & Hx & Hpair). injection Hpair as <-.
    rewrite (world_bind_returned _ _ _ _ Hx) in Hbuilt |- *.
    cbn [ret world] in Hbuilt |- *.
    unfold call in Hx. apply perform_returned in Hx.
    exists (x :: xs). split; [| reflexivity].
    simpl. eexists. split; [exact Hx | exact Hbuilt].
Qed.

End Tests.

Ltac absent :=
  let Hin := fresh "Hin" in
  intros Hin; cbv in Hin;
  repeat (destruct Hin as [Hin | Hin]; [discriminate Hin |]);
  exact Hin.

(** X8. Whenever [examine_processed_dataset] returns [(count, lengths)],
    it went once round its loop for each example the dataset yielded:
    the dataset was stepped [count + 1] times (the last step found it
    exhausted), [len] was called [count] times, [lengths] holds what those
    calls returned, and [count] is the number of its entries. *)
Theorem examine_processed_dataset_counts_its_lengths :
  forall (World : Type) (h : host World) fuel proc_dataset (w : World)
         count lengths,
    res (examine_processed_dataset h fuel proc_dataset w)
    = Returned (count, lengths) ->
    count = Z.of_nat (List.length lengths)
    /\ count_calls (Builtin "for")
         (calls (examine_processed_dataset h fuel proc_dataset w))
       = S (List.length lengths)
    /\ count_calls (Builtin "len")
         (calls (examine_processed_dataset h fuel proc_dataset w))
       = List.length lengths
    /\ Forall (measured h) lengths.
Proof.
  intros * H. split; [exact (examine_counts h _ _ _ _ _ H) |].
  destruct (examine_rounds h _ _ _ _ _ H) as [Hfor Hlen].
  split; [exact Hfor |]. split; [exact Hlen |].
  exact (examine_measured h _ _ _ _ _ H).
Qed.

(** X9. [t5_gin_config] calls [t5_processors.random_spans_tokens_length]
    only after its first eight bindings were made and returned; the five
    parameters of [random_spans_helper], which that function reads, are
    among them. *)
Theorem random_spans_helper_is_bound_before_it_is_read :
  forall (World : Type) (h : host World) (w : World) l1 ev l2,
    calls (t5_gin_config h w) = l1 ++ ev :: l2 ->
    target ev = random_spans_tokens_length ->
    map step_of l1 = t5_gin_config_first
    /\ quiet l1
    /\ incl random_spans_helper_keys (bound_keys l1).
Proof.
  intros * Hc Ht.
  assert (Hlab : step_of ev = plain random_spans_tokens_length)
    by (unfold step_of; rewrite Ht; reflexivity).
  assert (Hl1 : map step_of l1 = t5_gin_config_first).
  { apply (position_in_script step_of (t5_gin_config h w)
             t5_gin_config_script t5_gin_config_first t5_gin_config_last
             l1 ev l2 (t5_gin_config_scripted h w) Hc);
      rewrite Hlab; [reflexivity | absent | absent]. }
  split; [exact Hl1 |]. split.
  - exact (earlier_calls_returned _ _ _ _ (t5_gin_config_transparent h w)
                                  Hc).
  - unfold bound_keys. rewrite Hl1. intros k Hk. cbv in Hk. cbv. tauto.
Qed.

(** X10. [t5_gin_config], [test_c4] and [test_c4_pretrain] bind no gin
    parameter twice, whatever gin does: no binding of theirs overrides an
    earlier one of the same run. *)
Theorem gin_parameters_are_bound_once :
  forall (World : Type) (h : host World) (_TESTDATA : value) (w : World),
    NoDup (bound_keys (calls (t5_gin_config h w)))
    /\ NoDup (bound_keys (calls (test_c4 h _TESTDATA w)))
    /\ NoDup (bound_keys (calls (test_c4_pretrain h _TESTDATA w))).
Proof.
  intros. split; [| split].
  - destruct (t5_gin_config_scripted h w) as [[n Hn] _].
    exact (bound_once _ _ n Hn t5_gin_config_keys_distinct).
  - destruct (test_c4_scripted h _TESTDATA w) as [[n Hn] _].
    exact (bound_once _ _ n Hn test_c4_keys_distinct).
  - destruct (test_c4_pretrain_scripted h _TESTDATA w) as [[n Hn] _].
    exact (bound_once _ _ n Hn test_c4_pretrain_keys_distinct).
Qed.

Ltac not_this_binding Hb :=
  match type of Hb with
  | binds ?k (Ev ?c ?a ?kw _) = true =>
      change (binds k (Ev c a kw None) = true) in Hb;
      cbv in Hb; discriminate Hb
  end.

(** X11. The value [t5_gin_config] binds to
    ['split_tokens.max_tokens_per_segment'] is the one
    [t5_processors.random_spans_tokens_length()] returned in that run. *)
Theorem split_tokens_gets_the_computed_length :
  forall (World : Type) (h : host World) (w : World) ev,
    In ev (calls (t5_gin_config h w)) ->
    binds "split_tokens.max_tokens_per_segment" ev = true ->
    exists n w1 w2,
      ev_args ev = [VStr "split_tokens.max_tokens_per_segment"; n]
      /\ host_call h random_spans_tokens_length [] [] w1 = (Returned n, w2).
Proof.
  intros * H Hb. unfold t5_gin_config, bind_parameter, call in H.
  do 8 (apply in_calls_bind in H; destruct H as [H | (? & _ & H)];
        [apply in_calls_perform in H; subst ev; not_this_binding Hb |]).
  apply in_calls_bind in H. destruct H as [H | (n & Hn & H)];
    [apply in_calls_perform in H; subst ev; not_this_binding Hb |].
  apply in_calls_bind in H. destruct H as [H | (? & _ & H)].
  - apply in_calls_perform in H. subst ev. apply perform_returned in Hn.
    eexists n, _, _. split; [reflexivity | exact Hn].
  - do 4 (apply in_calls_bind in H; destruct H as [H | (? & _ & H)];
          [apply in_calls_perform in H; subst ev; not_this_binding Hb |]).
    exact (False_ind _ H).
Qed.

(** X12. In [test_c4_bare_preprocess_fun_denoising_objective] and in
    [test_c4_pretrain], a call into [trax.supervised.inputs] is made only
    after [t5_gin_config] ran through: all fourteen of its steps were made,
    in order, and returned. *)
Theorem gin_is_configured_before_inputs_is_called :
  forall (World : Type) (h : host World) (_TESTDATA : value) (w : World),
    (forall l1 ev l2,
        calls (test_c4_bare_preprocess_fun_denoising_objective
                 h _TESTDATA w) = l1 ++ ev :: l2 ->
        into_inputs ev = true ->
        exists cfg rest,
          l1 = cfg ++ rest /\ map step_of cfg = t5_gin_config_script
          /\ quiet cfg)
    /\ (forall l1 ev l2,
           calls (test_c4_pretrain h _TESTDATA w) = l1 ++ ev :: l2 ->
           into_inputs ev = true ->
           exists cfg rest,
             l1 = cfg ++ rest /\ map step_of cfg = t5_gin_config_script
             /\ quiet cfg).
Proof.
  intros. split; intros l1 ev l2 Hc Hev.
  - unfold test_c4_bare_preprocess_fun_denoising_objective in Hc.
    eapply after_all_of with (P := into_inputs);
      [ apply t5_gin_config_scripted | apply t5_gin_config_transparent
      | apply t5_gin_config_stays_out_of_inputs | exact Hc | exact Hev ].
  - unfold test_c4_pretrain in Hc.
    eapply after_all_of with (P := into_inputs);
      [ apply t5_gin_config_scripted | apply t5_gin_config_transparent
      | apply t5_gin_config_stays_out_of_inputs | exact Hc | exact Hev ].
Qed.

(** X13. [test_batch_data], [test_pad_to_max_dims],
    [test_c4_bare_preprocess_fun] and [test_c4_preprocess] never call gin:
    they run on the configuration [setUp] cleared, which is why the bare
    preprocessing test finds its inputs empty. *)
Theorem unconfigured_tests_leave_gin_alone :
  forall (World : Type) (h : host World) (_TESTDATA : value) fuel
         (w : World),
    Forall not_gin (calls (test_batch_data h w))
    /\ Forall not_gin (calls (test_pad_to_max_dims h w))
    /\ Forall not_gin (calls (test_c4_bare_preprocess_fun h _TESTDATA w))
    /\ Forall not_gin (calls (test_c4_preprocess h _TESTDATA fuel w)).
Proof.
  intros. split; [apply test_batch_data_not_gin |].
  split; [apply test_pad_to_max_dims_not_gin |].
  split; [apply test_c4_bare_preprocess_fun_not_gin
         | apply test_c4_preprocess_not_gin].
Qed.

(** X14. The generator of [_test_dataset_ints], run to its end, yields one
    example per length, in order.  Each is the pair [(x, x)] of the very
    array that [np.zeros([length], dtype=np.int64)] returned for that
    length: inputs and targets are one object, and no other call is
    made. *)
Theorem generator_yields_one_shared_array_per_length :
  forall (World : Type) (h : host World) lengths (w : World) items,
    res (generator h lengths w) = Returned items ->
    (exists xs,
        built_by_zeros h lengths w xs (world (generator h lengths w))
        /\ items = map (fun x => VTuple [x; x]) xs)
    /\ List.length items = List.length lengths
    /\ map (fun ev => (ev_args ev, ev_kwargs ev))
           (calls (generator h lengths w))
       = map zeros_call lengths.
Proof.
  intros * H. split; [exact (generator_built h _ _ _ H) |].
  destruct (generator_run h _ _ _ H) as (Hlen & _ & Hcalls).
  split; assumption.
Qed.

Lemma called_last {A World} (o : outcome (World:=World) A) script pre
      l1 ev l2 :
  follows step_of script o ->
  calls o = l1 ++ ev :: l2 ->
  script = pre ++ [step_of ev] ->
  ~ In (step_of ev) pre ->
  map step_of l1 = pre /\ l2 = [].
Proof.
  intros Hf Hc Hs Hpre.
  assert (Hl1 : map step_of l1 = pre).
  { apply (position_in_script step_of o script pre [] l1 ev l2 Hf Hc Hs
             Hpre). intros []. }
  split; [exact Hl1 |].
  destruct Hf as [[n Hn] _]. apply (f_equal (@List.length step)) in Hn.
  rewrite Hc, length_map, length_app, length_firstn in Hn.
  rewrite Hs, length_app, <- Hl1, length_map in Hn. simpl in Hn.
  destruct l2; [reflexivity | simpl in Hn; lia].
Qed.

(** X15. In [test_c4] and in [test_c4_pretrain] the call of
    [inputs.inputs] is the last call made, and it is made only after every
    binding of the test (eight, and nineteen with those of
    [t5_gin_config]) was made, in source order, and returned. *)
Theorem inputs_is_called_last_and_fully_configured :
  forall (World : Type) (h : host World) (_TESTDATA : value) (w : World),
    (forall l1 ev l2,
        calls (test_c4 h _TESTDATA w) = l1 ++ ev :: l2 ->
        target ev = Lib "inputs" "inputs" ->
        map step_of l1 = test_c4_settings /\ quiet l1 /\ l2 = [])
    /\ (forall l1 ev l2,
           calls (test_c4_pretrain h _TESTDATA w) = l1 ++ ev :: l2 ->
           target ev = Lib "inputs" "inputs" ->
           map step_of l1 = test_c4_pretrain_settings /\ quiet l1
           /\ l2 = []).
Proof.
  intros. split; intros l1 ev l2 Hc Ht.
  - assert (Hlab : step_of ev = inputs_inputs)
      by (unfold step_of; rewrite Ht; reflexivity).
    destruct (called_last _ test_c4_script test_c4_settings l1 ev l2
                (test_c4_scripted h _TESTDATA w) Hc) as [Hl1 Hl2];
      [rewrite Hlab; reflexivity | rewrite Hlab; absent |].
    split; [exact Hl1 |]. split; [| exact Hl2].
    exact (earlier_calls_returned _ _ _ _
             (test_c4_transparent h _TESTDATA w) Hc).
  - assert (Hlab : step_of ev = inputs_inputs)
      by (unfold step_of; rewrite Ht; reflexivity).
    destruct (called_last _ test_c4_pretrain_script
                test_c4_pretrain_settings l1 ev l2
                (test_c4_pretrain_scripted h _TESTDATA w) Hc)
      as [Hl1 Hl2];
      [rewrite Hlab; reflexivity | rewrite Hlab; absent |].
    split; [exact Hl1 |]. split; [| exact Hl2].
    exact (earlier_calls_returned _ _ _ _
             (test_c4_pretrain_transparent h _TESTDATA w) Hc).
Qed.

(** *** The theorems at concrete runs *)

Lemma examine_processed_dataset_counts_its_lengths_witness :
  exists count lengths,
    res (examine_processed_dataset two_examples 3 (VOpaque "dataset")
           0%nat) = Returned (count, lengths)
    /\ count = 2
    /\ (count = Z.of_nat (List.length lengths)
        /\ count_calls (Builtin "for")
             (calls (examine_processed_dataset two_examples 3
                       (VOpaque "dataset") 0%nat))
           = S (List.length lengths)
        /\ count_calls (Builtin "len")
             (calls (examine_processed_dataset two_examples 3
                       (VOpaque "dataset") 0%nat))
           = List.length lengths
        /\ Forall (measured two_examples) lengths).
Proof.
  eexists. eexists. split; [vm_compute; reflexivity |].
  split; [reflexivity |].
  apply (examine_processed_dataset_counts_its_lengths nat two_examples 3
           (VOpaque "dataset") 0%nat).
  vm_compute. reflexivity.
Defined.

Lemma random_spans_helper_is_bound_before_it_is_read_witness :
  let run := calls (t5_gin_config (symbolic unit) tt) in
  map step_of (firstn 8 run) = t5_gin_config_first
  /\ quiet (firstn 8 run)
  /\ incl random_spans_helper_keys (bound_keys (firstn 8 run)).
Proof.
  apply (random_spans_helper_is_bound_before_it_is_read unit
           (symbolic unit) tt
           (firstn 8 (calls (t5_gin_config (symbolic unit) tt)))
           (Ev random_spans_tokens_length [] [] None)
           (skipn 9 (calls (t5_gin_config (symbolic unit) tt))));
    vm_compute; reflexivity.
Defined.

Lemma split_tokens_gets_the_computed_length_witness :
  exists n w1 w2,
    ev_args (Ev (Lib "gin" "bind_parameter")
                [VStr "split_tokens.max_tokens_per_segment";
                 VObj "t5_processors" "random_spans_tokens_length" [] []]
                [] None)
    = [VStr "split_tokens.max_tokens_per_segment"; n]
    /\ host_call (symbolic unit) random_spans_tokens_length [] [] w1
       = (Returned n, w2).
Proof.
  apply (split_tokens_gets_the_computed_length unit (symbolic unit) tt).
  - vm_compute. do 9 right. left. reflexivity.
  - vm_compute. reflexivity.
Defined.

Lemma gin_is_configured_before_inputs_is_called_witness :
  exists cfg rest,
    firstn 21 (calls (test_c4_pretrain (symbolic unit) (VStr "testdata")
                        tt))
    = cfg ++ rest
    /\ map step_of cfg = t5_gin_config_script
    /\ quiet cfg.
Proof.
  apply (proj2 (gin_is_configured_before_inputs_is_called unit
                  (symbolic unit) (VStr "testdata") tt)
               (firstn 21 (calls (test_c4_pretrain (symbolic unit)
                                    (VStr "testdata") tt)))
               (Ev (Lib "inputs" "inputs") [VStr "c4"]
                   [("data_dir", VStr "testdata");
                    ("input_name", VStr "inputs");
                    ("target_name", VStr "targets")] None)
               []);
    vm_compute; reflexivity.
Defined.

Lemma generator_yields_one_shared_array_per_length_witness :
  exists items,
    res (generator (symbolic unit) [3; 0; 5] tt) = Returned items
    /\ (exists xs,
           built_by_zeros (symbolic unit) [3; 0; 5] tt xs
             (world (generator (symbolic unit) [3; 0; 5] tt))
           /\ items = map (fun x => VTuple [x; x]) xs)
    /\ List.length items = 3%nat
    /\ map (fun ev => (ev_args ev, ev_kwargs ev))
           (calls (generator (symbolic unit) [3; 0; 5] tt))
       = map zeros_call [3; 0; 5].
Proof.
  eexists. split; [vm_compute; reflexivity |].
  apply (generator_yields_one_shared_array_per_length unit (symbolic unit)
           [3; 0; 5] tt).
  vm_compute. reflexivity.
Defined.

Lemma inputs_is_called_last_and_fully_configured_witness :
  let run := calls (test_c4 (symbolic unit) (VStr "testdata") tt) in
  map step_of (firstn 9 run) = test_c4_settings
  /\ quiet (firstn 9 run)
  /\ skipn 10 run = [].
Proof.
  apply (proj1 (inputs_is_called_last_and_fully_configured unit
                  (symbolic unit) (VStr "testdata") tt)
               (firstn 9 (calls (test_c4 (symbolic unit)
                                         (VStr "testdata") tt)))
               (Ev (Lib "inputs" "inputs") [VStr "c4"]
                   [("data_dir", VStr "testdata");
                    ("input_name", VStr "targets");
                    ("target_name", VStr "text")] None)
               (skipn 10 (calls (test_c4 (symbolic unit)
                                         (VStr "testdata") tt))));
    vm_compute; reflexivity.
Defined.

End InputsTestMore.
